(** * failover-ethclient: the failover dispatch protocol and its metrics

    A shallow embedding of [config.go], [prometheus.go] and [ethclient.go].
    The remote nodes, the wall clock and the Prometheus registry are the
    outside world: they are kept in an explicit [World] that every
    operation threads through, and the behaviour of the network is an
    oracle ([Network]) over which all statements quantify. *)

From Stdlib Require Import ZArith Lia.
From stdpp Require Import base strings gmap list.

Local Open Scope Z_scope.

(** ** Go's [error] values *)

(** The dynamic values an [error] interface can hold.  [context.Canceled]
    and [context.DeadlineExceeded] are the two sentinels of package
    [context]; [errorString] is what [errors.New] and [fmt.Errorf] without
    [%w] build; [wrapError] is any error with an [Unwrap] method
    ([fmt.Errorf] with [%w], [*url.Error], ...). *)
Inductive err : Type :=
| context_Canceled
| context_DeadlineExceeded
| errorString (s : string)
| wrapError (msg : string) (inner : err).

(** An [error] is [nil] or holds a value. *)
Definition error : Type := option err.
Definition nil : error := None.

#[global] Instance err_eq_dec : EqDecision err.
Proof. solve_decision. Defined.

(** [err == sentinel] on interface values. *)
Definition go_eq (e : error) (sentinel : err) : bool :=
  bool_decide (e = Some sentinel).

(** [err == nil] *)
Definition is_nil (e : error) : bool :=
  match e with None => true | Some _ => false end.

(** [errors.Is(e, target)]: walks the [Unwrap] chain. *)
Fixpoint errors_Is (e : err) (target : err) : bool :=
  bool_decide (e = target) ||
  match e with
  | wrapError _ inner => errors_Is inner target
  | _ => false
  end.

(** ** config.go *)

Definition nameLenLimit : nat := 32.

Record Config := {
  EnablePrometheus : bool;
  RpcUrl : string;
  RpcName : string;
  FailoverRpcUrl : string;
  FailoverRpcName : string;
}.

(** [fmt.Errorf(format, s)] with a single [%s] verb at the end of
    [format]: the prefix followed by the string. *)
Definition fmt_Errorf (pre : string) (s : string) : error :=
  Some (errorString (pre +:+ s)).

(** [len] of a Go string is its number of bytes. *)
Definition len (s : string) : nat := String.length s.

Definition Valid (c : Config) : error :=
  if (nameLenLimit <=? len (RpcName c))%nat then
    fmt_Errorf "invalid RpcName: " (RpcName c)
  else if (nameLenLimit <=? len (FailoverRpcName c))%nat then
    fmt_Errorf "invalid RpcFailoverName: " (FailoverRpcName c)
  else nil.

(** ** The go-ethereum types the facade passes through

    The facade never looks inside an address, a block or a transaction:
    it hands arguments to a connection and results back to the caller.
    These types are therefore kept abstract. *)
Class EthTypes : Type := {
  context_Context : Type;        (* context.Context *)
  common_Address : Type;         (* common.Address *)
  common_Hash : Type;            (* common.Hash *)
  big_Int : Type;                (* *big.Int *)
  types_Block : Type;            (* *types.Block *)
  types_Header : Type;           (* *types.Header *)
  types_Transaction : Type;      (* *types.Transaction *)
  types_Receipt : Type;          (* *types.Receipt *)
  types_Log : Type;              (* types.Log *)
  ethereum_CallMsg : Type;       (* ethereum.CallMsg *)
  ethereum_FilterQuery : Type;   (* ethereum.FilterQuery *)
  ethereum_SyncProgress : Type;  (* *ethereum.SyncProgress *)
  ethereum_Subscription : Type;  (* ethereum.Subscription *)
  chan_Log : Type;               (* chan<- types.Log *)
  chan_Header : Type;            (* chan<- *types.Header *)
}.

Definition uint64 : Type := N.
Definition uint : Type := N.
Definition bytes : Type := list Byte.byte.

(** ** prometheus.go: the metric vectors *)

(** [prometheus.Labels] is a [map[string]string]. *)
Abbreviation Labels := (gmap string string).

Definition labelApp : string := "app".
Definition labelChain : string := "chain".
Definition labelSuccess : string := "success".
Definition labelMethod : string := "method".
Definition labelClient : string := "client".

Definition labels : list string := [labelMethod; labelClient; labelSuccess].

(** The bucket bounds are [float64] literals; all of them are small
    integers, which [float64] represents exactly. *)
Definition latencyBucket : list Z :=
  [2; 4; 8; 16; 32; 64; 128; 256; 512; 1024; 2048].

(** What [prometheus.NewCounterVec(CounterOpts{...}, labelNames)] and
    [prometheus.NewHistogramVec(HistogramOpts{...}, labelNames)] are
    built from. *)
Record CounterVec := {
  cv_Name : string;
  cv_Help : string;
  cv_ConstLabels : Labels;
  cv_labelNames : list string;
}.

Record HistogramVec := {
  hv_Name : string;
  hv_Help : string;
  hv_Buckets : list Z;
  hv_ConstLabels : Labels;
  hv_labelNames : list string;
}.

Record metrics := {
  req : CounterVec;
  latency : HistogramVec;
}.

Definition newMetrics (appName : string) (chainName : string) : metrics :=
  {| req :=
       {| cv_Name := "rpc_request_total";
          cv_Help := "RPC requests counts";
          cv_ConstLabels := {[ labelApp := appName; labelChain := chainName ]};
          cv_labelNames := labels |};
     latency :=
       {| hv_Name := "rpc_latency_milliseconds";
          hv_Help := "RPC request latency in milliseconds";
          hv_Buckets := latencyBucket;
          hv_ConstLabels := {[ labelApp := appName; labelChain := chainName ]};
          hv_labelNames := labels |} |}.

(** A collector as the registry sees it. *)
Inductive Collector : Type :=
| CounterCollector (v : CounterVec)
| HistogramCollector (v : HistogramVec).

(** The registry tells collectors apart by fully-qualified name and
    constant label values. *)
Definition collector_id (col : Collector) : string * Labels :=
  match col with
  | CounterCollector v => (cv_Name v, cv_ConstLabels v)
  | HistogramCollector v => (hv_Name v, hv_ConstLabels v)
  end.

(** One call on a child of a metric vector: [v.With(ls).Inc()] or
    [v.With(ls).Observe(x)]. *)
Inductive Sample : Type :=
| CounterInc (v : CounterVec) (ls : Labels)
| HistogramObserve (v : HistogramVec) (ls : Labels) (x : Z).

Definition strconv_FormatBool (b : bool) : string :=
  if b then "true" else "false".

(** ** The remote procedure calls of [*ethclient.Client] *)

Section Model.
Context {T : EthTypes}.

Inductive Method : Type :=
| ec_BalanceAt
| ec_BlockByHash
| ec_BlockByNumber
| ec_BlockNumber
| ec_CallContract
| ec_CallContractAtHash
| ec_ChainID
| ec_CodeAt
| ec_EstimateGas
| ec_FilterLogs
| ec_HeaderByHash
| ec_HeaderByNumber
| ec_NetworkID
| ec_NonceAt
| ec_PeerCount
| ec_PendingBalanceAt
| ec_PendingCallContract
| ec_PendingCodeAt
| ec_PendingNonceAt
| ec_PendingStorageAt
| ec_PendingTransactionCount
| ec_SendTransaction
| ec_StorageAt
| ec_SubscribeFilterLogs
| ec_SubscribeNewHead
| ec_SuggestGasPrice
| ec_SuggestGasTipCap
| ec_SyncProgress
| ec_TransactionByHash
| ec_TransactionCount
| ec_TransactionInBlock
| ec_TransactionReceipt
| ec_TransactionSender.

Definition Args (meth : Method) : Type :=
  match meth with
  | ec_BalanceAt => common_Address * big_Int
  | ec_BlockByHash => common_Hash
  | ec_BlockByNumber => big_Int
  | ec_BlockNumber => unit
  | ec_CallContract => ethereum_CallMsg * big_Int
  | ec_CallContractAtHash => ethereum_CallMsg * common_Hash
  | ec_ChainID => unit
  | ec_CodeAt => common_Address * big_Int
  | ec_EstimateGas => ethereum_CallMsg
  | ec_FilterLogs => ethereum_FilterQuery
  | ec_HeaderByHash => common_Hash
  | ec_HeaderByNumber => big_Int
  | ec_NetworkID => unit
  | ec_NonceAt => common_Address * big_Int
  | ec_PeerCount => unit
  | ec_PendingBalanceAt => common_Address
  | ec_PendingCallContract => ethereum_CallMsg
  | ec_PendingCodeAt => common_Address
  | ec_PendingNonceAt => common_Address
  | ec_PendingStorageAt => common_Address * common_Hash
  | ec_PendingTransactionCount => unit
  | ec_SendTransaction => types_Transaction
  | ec_StorageAt => common_Address * common_Hash * big_Int
  | ec_SubscribeFilterLogs => ethereum_FilterQuery * chan_Log
  | ec_SubscribeNewHead => chan_Header
  | ec_SuggestGasPrice => unit
  | ec_SuggestGasTipCap => unit
  | ec_SyncProgress => unit
  | ec_TransactionByHash => common_Hash
  | ec_TransactionCount => common_Hash
  | ec_TransactionInBlock => common_Hash * uint
  | ec_TransactionReceipt => common_Hash
  | ec_TransactionSender => types_Transaction * common_Hash * uint
  end.

Definition Result (meth : Method) : Type :=
  match meth with
  | ec_BalanceAt => big_Int
  | ec_BlockByHash => types_Block
  | ec_BlockByNumber => types_Block
  | ec_BlockNumber => uint64
  | ec_CallContract => bytes
  | ec_CallContractAtHash => bytes
  | ec_ChainID => big_Int
  | ec_CodeAt => bytes
  | ec_EstimateGas => uint64
  | ec_FilterLogs => (list types_Log)
  | ec_HeaderByHash => types_Header
  | ec_HeaderByNumber => types_Header
  | ec_NetworkID => big_Int
  | ec_NonceAt => uint64
  | ec_PeerCount => uint64
  | ec_PendingBalanceAt => big_Int
  | ec_PendingCallContract => bytes
  | ec_PendingCodeAt => bytes
  | ec_PendingNonceAt => uint64
  | ec_PendingStorageAt => bytes
  | ec_PendingTransactionCount => uint
  | ec_SendTransaction => unit
  | ec_StorageAt => bytes
  | ec_SubscribeFilterLogs => ethereum_Subscription
  | ec_SubscribeNewHead => ethereum_Subscription
  | ec_SuggestGasPrice => big_Int
  | ec_SuggestGasTipCap => big_Int
  | ec_SyncProgress => ethereum_SyncProgress
  | ec_TransactionByHash => types_Transaction * bool
  | ec_TransactionCount => uint
  | ec_TransactionInBlock => types_Transaction
  | ec_TransactionReceipt => types_Receipt
  | ec_TransactionSender => common_Address
  end.

Definition methodName (meth : Method) : string :=
  match meth with
  | ec_BalanceAt => "BalanceAt"
  | ec_BlockByHash => "BlockByHash"
  | ec_BlockByNumber => "BlockByNumber"
  | ec_BlockNumber => "BlockNumber"
  | ec_CallContract => "CallContract"
  | ec_CallContractAtHash => "CallContractAtHash"
  | ec_ChainID => "ChainID"
  | ec_CodeAt => "CodeAt"
  | ec_EstimateGas => "EstimateGas"
  | ec_FilterLogs => "FilterLogs"
  | ec_HeaderByHash => "HeaderByHash"
  | ec_HeaderByNumber => "HeaderByNumber"
  | ec_NetworkID => "NetworkID"
  | ec_NonceAt => "NonceAt"
  | ec_PeerCount => "PeerCount"
  | ec_PendingBalanceAt => "PendingBalanceAt"
  | ec_PendingCallContract => "PendingCallContract"
  | ec_PendingCodeAt => "PendingCodeAt"
  | ec_PendingNonceAt => "PendingNonceAt"
  | ec_PendingStorageAt => "PendingStorageAt"
  | ec_PendingTransactionCount => "PendingTransactionCount"
  | ec_SendTransaction => "SendTransaction"
  | ec_StorageAt => "StorageAt"
  | ec_SubscribeFilterLogs => "SubscribeFilterLogs"
  | ec_SubscribeNewHead => "SubscribeNewHead"
  | ec_SuggestGasPrice => "SuggestGasPrice"
  | ec_SuggestGasTipCap => "SuggestGasTipCap"
  | ec_SyncProgress => "SyncProgress"
  | ec_TransactionByHash => "TransactionByHash"
  | ec_TransactionCount => "TransactionCount"
  | ec_TransactionInBlock => "TransactionInBlock"
  | ec_TransactionReceipt => "TransactionReceipt"
  | ec_TransactionSender => "TransactionSender"
  end.

(** A dialed [*ethclient.Client]. *)
Record Conn := {
  conn_id : nat;
  conn_url : string;
}.

#[export] Instance Conn_eq_dec : EqDecision Conn.
Proof. solve_decision. Defined.

(** What one remote call gives back: the result value(s), the error and
    the time the call took (nanoseconds). *)
Record Answer (R : Type) := {
  ans_result : R;
  ans_err : error;
  ans_elapsed : Z;
}.
Arguments ans_result {R} _.
Arguments ans_err {R} _.
Arguments ans_elapsed {R} _.

(** What happened on the network, in order. *)
Inductive WireEvent : Type :=
| Dialed (rawurl : string) (outcome : Conn + err)
| Called (conn : Conn) (meth : Method) (ctx : context_Context)
    (args : Args meth) (a : Answer (Result meth))
| Closed (conn : Conn).

(** ** The world outside the process *)

Record World := {
  clock : Z;                    (* wall clock, nanoseconds *)
  wire : list WireEvent;        (* network traffic, oldest first *)
  registry : list Collector;    (* prometheus.DefaultRegisterer *)
  recorded : list Sample;       (* calls on metric children, oldest first *)
  logged : list string;         (* lines written by the logger *)
}.

Definition tick (d : Z) (w : World) : World :=
  {| clock := clock w + d; wire := wire w; registry := registry w;
     recorded := recorded w; logged := logged w |}.

Definition on_wire (ev : WireEvent) (w : World) : World :=
  {| clock := clock w; wire := wire w ++ [ev]; registry := registry w;
     recorded := recorded w; logged := logged w |}.

Definition with_registry (r : list Collector) (w : World) : World :=
  {| clock := clock w; wire := wire w; registry := r;
     recorded := recorded w; logged := logged w |}.

Definition record_sample (s : Sample) (w : World) : World :=
  {| clock := clock w; wire := wire w; registry := registry w;
     recorded := recorded w ++ [s]; logged := logged w |}.

Definition log_line (s : string) (w : World) : World :=
  {| clock := clock w; wire := wire w; registry := registry w;
     recorded := recorded w; logged := logged w ++ [s] |}.

(** The behaviour of the endpoints: whether a dial succeeds and what a
    connection answers to a call.  Both may depend on the time and on
    all the traffic so far. *)
Class Network : Type := {
  dial_error : string → Z → list WireEvent → error;
  answer : Conn → ∀ meth : Method,
    context_Context → Args meth → Z → list WireEvent → Answer (Result meth);
}.

Context {net : Network}.

(** ** Go computations: a state monad over the world, with panics *)

Inductive Outcome (A : Type) : Type :=
| Returned (a : A) (w : World)
| Panicked (reason : string) (w : World).
Arguments Returned {A} _ _.
Arguments Panicked {A} _ _.

Definition Go (A : Type) : Type := World → Outcome A.

#[export] Instance Go_ret : MRet Go := λ A a w, Returned a w.
#[export] Instance Go_bind : MBind Go := λ A B f m w,
  match m w with
  | Returned a w' => f a w'
  | Panicked reason w' => Panicked reason w'
  end.

Definition panic {A : Type} (reason : string) : Go A :=
  λ w, Panicked reason w.

Definition nil_dereference : string :=
  "runtime error: invalid memory address or nil pointer dereference".

(** [time.Now()], [time.Since(t)] and [Duration.Milliseconds()]. *)
Definition time_Now : Go Z := λ w, Returned (clock w) w.
Definition time_Since (t : Z) : Go Z := λ w, Returned (clock w - t) w.
Definition Milliseconds (d : Z) : Z := Z.quot d 1000000.

(** [logger.Info().Msgf(...)] *)
Definition logger_Info (line : string) : Go unit :=
  λ w, Returned tt (log_line line w).

(** [ethclient.Dial(rawurl)]: a new connection, or an error. *)
Definition ethclient_Dial (rawurl : string) : Go (Conn + err) := λ w,
  match dial_error rawurl (clock w) (wire w) with
  | None =>
      let conn := {| conn_id := length (wire w); conn_url := rawurl |} in
      Returned (inl conn) (on_wire (Dialed rawurl (inl conn)) w)
  | Some e => Returned (inr e) (on_wire (Dialed rawurl (inr e)) w)
  end.

(** [conn.Method(ctx, args...)]: the call goes out, time passes, the
    answer comes back. *)
Definition call (conn : Conn) (meth : Method) (ctx : context_Context)
    (args : Args meth) : Go (Result meth * error) := λ w,
  let a := answer conn meth ctx args (clock w) (wire w) in
  Returned (ans_result a, ans_err a)
    (tick (ans_elapsed a) (on_wire (Called conn meth ctx args a) w)).

(** [conn.Close()] *)
Definition ethclient_Close (conn : Conn) : Go unit :=
  λ w, Returned tt (on_wire (Closed conn) w).

(** [prometheus.MustRegister(c)] panics when a collector with the same
    name and constant labels is registered already. *)
Definition prometheus_MustRegister (col : Collector) : Go unit := λ w,
  if bool_decide (collector_id col ∈ collector_id <$> registry w) then
    Panicked "duplicate metrics collector registration attempted" w
  else Returned tt (with_registry (registry w ++ [col]) w).


Definition Register (m : metrics) : Go unit :=
  prometheus_MustRegister (CounterCollector (req m));;
  prometheus_MustRegister (HistogramCollector (latency m)).


Definition Counter_Inc (v : CounterVec) (ls : Labels) : Go unit :=
  λ w, Returned tt (record_sample (CounterInc v ls) w).

Definition Histogram_Observe (v : HistogramVec) (ls : Labels) (x : Z) : Go unit :=
  λ w, Returned tt (record_sample (HistogramObserve v ls x) w).

(** The receiver is a [*metrics]: [None] is the nil pointer, and reading
    the field [s.req] through it panics. *)
Definition Observe (s : option metrics) (method : string) (startedAt : Z)
    (client : string) (successful : bool) : Go unit :=
  match s with
  | None => panic nil_dereference
  | Some s =>
      Counter_Inc (req s)
        {[ labelMethod := method;
           labelClient := client;
           labelSuccess := strconv_FormatBool successful ]};;
      d ← time_Since startedAt;
      Histogram_Observe (latency s)
        {[ labelMethod := method;
           labelClient := client;
           labelSuccess := strconv_FormatBool successful ]}
        (Milliseconds d)
  end.

(** ** ethclient.go *)

(** The [client] struct.  The logger it keeps is only written to in
    [New]; its lines are in [logged]. *)
Record client := {
  c_metrics : option metrics;  (* metrics *metrics; nil when disabled *)
  c_cfg : Config;              (* cfg *)
  c_m : Conn;                  (* m, main *)
  c_b : Conn;                  (* b, backup *)
}.

(** ["setting up rpc client for app %s on chain %s"], formatted. *)
Definition greeting (appName chain : string) : string :=
  "setting up rpc client for app " +:+ appName +:+ " on chain " +:+ chain.

(** The logger is [zerolog.DefaultContextLogger] or, when that is nil, a
    fresh one: the lines are logged either way.  [cfg] is a [*Config]
    that is not nil. *)
Definition New (appName : string) (chain : string) (cfg : Config)
    : Go (option client * error) :=
  logger_Info (greeting appName chain);;
  match Valid cfg with
  | Some e => mret (None, Some e)
  | None =>
      m ← ethclient_Dial (RpcUrl cfg);
      match m with
      | inr e => mret (None, Some e)
      | inl m =>
          b ← ethclient_Dial (FailoverRpcUrl cfg);
          match b with
          | inr e => mret (None, Some e)
          | inl b =>
              if EnablePrometheus cfg then
                logger_Info "enabling rpc metrics";;
                let ms := newMetrics appName chain in
                Register ms;;
                mret (Some {| c_metrics := Some ms; c_cfg := cfg;
                              c_m := m; c_b := b |}, nil)
              else
                mret (Some {| c_metrics := None; c_cfg := cfg;
                              c_m := m; c_b := b |}, nil)
          end
      end
  end.

Definition shouldFailover (c : client) (err : error) : bool :=
  if go_eq err context_DeadlineExceeded || go_eq err context_Canceled
  then false
  else true.

Definition Close (c : client) : Go unit :=
  ethclient_Close (c_m c);;
  ethclient_Close (c_b c).

Definition BalanceAt (c : client) (ctx : context_Context) (account : common_Address) (blockNumber : big_Int) : Go (big_Int * error) :=
  t ← time_Now;
  '(r, err) ← call (c_m c) ec_BalanceAt ctx (account, blockNumber);
  Observe (c_metrics c) "BalanceAt" t (RpcName (c_cfg c)) (is_nil err);;
  if negb (is_nil err) then
    if negb (shouldFailover c err) then mret (r, err) else
    (* use failover rpc client *)
    t ← time_Now;
    '(r, err) ← call (c_b c) ec_BalanceAt ctx (account, blockNumber);
    Observe (c_metrics c) "BalanceAt" t (FailoverRpcName (c_cfg c)) (is_nil err);;
    mret (r, err)
  else mret (r, nil).

Definition BlockByHash (c : client) (ctx : context_Context) (hash : common_Hash) : Go (types_Block * error) :=
  t ← time_Now;
  '(r, err) ← call (c_m c) ec_BlockByHash ctx hash;
  Observe (c_metrics c) "BlockByHash" t (RpcName (c_cfg c)) (is_nil err);;
  if negb (is_nil err) then
    if negb (shouldFailover c err) then mret (r, err) else
    (* use failover rpc client *)
    t ← time_Now;
    '(r, err) ← call (c_b c) ec_BlockByHash ctx hash;
    Observe (c_metrics c) "BlockByHash" t (FailoverRpcName (c_cfg c)) (is_nil err);;
    mret (r, err)
  else mret (r, nil).

Definition BlockByNumber (c : client) (ctx : context_Context) (number : big_Int) : Go (types_Block * error) :=
  t ← time_Now;
  '(r, err) ← call (c_m c) ec_BlockByNumber ctx number;
  Observe (c_metrics c) "BlockByNumber" t (RpcName (c_cfg c)) (is_nil err);;
  if negb (is_nil err) then
    if negb (shouldFailover c err) then mret (r, err) else
    (* use failover rpc client *)
    t ← time_Now;
    '(r, err) ← call (c_b c) ec_BlockByNumber ctx number;
    Observe (c_metrics c) "BlockByNumber" t (FailoverRpcName (c_cfg c)) (is_nil err);;
    mret (r, err)
  else mret (r, nil).

Definition BlockNumber (c : client) (ctx : context_Context) : Go (uint64 * error) :=
  t ← time_Now;
  '(r, err) ← call (c_m c) ec_BlockNumber ctx tt;
  Observe (c_metrics c) "BlockNumber" t (RpcName (c_cfg c)) (is_nil err);;
  if negb (is_nil err) then
    if negb (shouldFailover c err) then mret (r, err) else
    (* use failover rpc client *)
    t ← time_Now;
    '(r, err) ← call (c_b c) ec_BlockNumber ctx tt;
    Observe (c_metrics c) "BlockNumber" t (FailoverRpcName (c_cfg c)) (is_nil err);;
    mret (r, err)
  else mret (r, nil).

Definition CallContract (c : client) (ctx : context_Context) (msg : ethereum_CallMsg) (blockNumber : big_Int) : Go (bytes * error) :=
  t ← time_Now;
  '(r, err) ← call (c_m c) ec_CallContract ctx (msg, blockNumber);
  Observe (c_metrics c) "CallContract" t (RpcName (c_cfg c)) (is_nil err);;
  if negb (is_nil err) then
    if negb (shouldFailover c err) then mret (r, err) else
    (* use failover rpc client *)
    t ← time_Now;
    '(r, err) ← call (c_b c) ec_CallContract ctx (msg, blockNumber);
    Observe (c_metrics c) "CallContract" t (FailoverRpcName (c_cfg c)) (is_nil err);;
    mret (r, err)
  else mret (r, nil).

Definition CallContractAtHash (c : client) (ctx : context_Context) (msg : ethereum_CallMsg) (blockHash : common_Hash) : Go (bytes * error) :=
  t ← time_Now;
  '(r, err) ← call (c_m c) ec_CallContractAtHash ctx (msg, blockHash);
  Observe (c_metrics c) "CallContractAtHash" t (RpcName (c_cfg c)) (is_nil err);;
  if negb (is_nil err) then
    if negb (shouldFailover c err) then mret (r, err) else
    (* use failover rpc client *)
    t ← time_Now;
    '(r, err) ← call (c_b c) ec_CallContractAtHash ctx (msg, blockHash);
    Observe (c_metrics c) "CallContractAtHash" t (FailoverRpcName (c_cfg c)) (is_nil err);;
    mret (r, err)
  else mret (r, nil).

Definition ChainID (c : client) (ctx : context_Context) : Go (big_Int * error) :=
  t ← time_Now;
  '(r, err) ← call (c_m c) ec_ChainID ctx tt;
  Observe (c_metrics c) "ChainID" t (RpcName (c_cfg c)) (is_nil err);;
  if negb (is_nil err) then
    if negb (shouldFailover c err) then mret (r, err) else
    (* use failover rpc client *)
    t ← time_Now;
    '(r, err) ← call (c_b c) ec_ChainID ctx tt;
    Observe (c_metrics c) "ChainID" t (FailoverRpcName (c_cfg c)) (is_nil err);;
    mret (r, err)
  else mret (r, nil).

Definition CodeAt (c : client) (ctx : context_Context) (account : common_Address) (blockNumber : big_Int) : Go (bytes * error) :=
  t ← time_Now;
  '(r, err) ← call (c_m c) ec_CodeAt ctx (account, blockNumber);
  Observe (c_metrics c) "CodeAt" t (RpcName (c_cfg c)) (is_nil err);;
  if negb (is_nil err) then
    if negb (shouldFailover c err) then mret (r, err) else
    (* use failover rpc client *)
    t ← time_Now;
    '(r, err) ← call (c_b c) ec_CodeAt ctx (account, blockNumber);
    Observe (c_metrics c) "CodeAt" t (FailoverRpcName (c_cfg c)) (is_nil err);;
    mret (r, err)
  else mret (r, nil).

Definition EstimateGas (c : client) (ctx : context_Context) (msg : ethereum_CallMsg) : Go (uint64 * error) :=
  t ← time_Now;
  '(r, err) ← call (c_m c) ec_EstimateGas ctx msg;
  Observe (c_metrics c) "EstimateGas" t (RpcName (c_cfg c)) (is_nil err);;
  if negb (is_nil err) then
    if negb (shouldFailover c err) then mret (r, err) else
    (* use failover rpc client *)
    t ← time_Now;
    '(r, err) ← call (c_b c) ec_EstimateGas ctx msg;
    Observe (c_metrics c) "EstimateGas" t (FailoverRpcName (c_cfg c)) (is_nil err);;
    mret (r, err)
  else mret (r, nil).

Definition FilterLogs (c : client) (ctx : context_Context) (q : ethereum_FilterQuery) : Go ((list types_Log) * error) :=
  t ← time_Now;
  '(r, err) ← call (c_m c) ec_FilterLogs ctx q;
  Observe (c_metrics c) "FilterLogs" t (RpcName (c_cfg c)) (is_nil err);;
  if negb (is_nil err) then
    if negb (shouldFailover c err) then mret (r, err) else
    (* use failover rpc client *)
    t ← time_Now;
    '(r, err) ← call (c_b c) ec_FilterLogs ctx q;
    Observe (c_metrics c) "FilterLogs" t (FailoverRpcName (c_cfg c)) (is_nil err);;
    mret (r, err)
  else mret (r, nil).

Definition HeaderByHash (c : client) (ctx : context_Context) (hash : common_Hash) : Go (types_Header * error) :=
  t ← time_Now;
  '(r, err) ← call (c_m c) ec_HeaderByHash ctx hash;
  Observe (c_metrics c) "HeaderByHash" t (RpcName (c_cfg c)) (is_nil err);;
  if negb (is_nil err) then
    if negb (shouldFailover c err) then mret (r, err) else
    (* use failover rpc client *)
    t ← time_Now;
    '(r, err) ← call (c_b c) ec_HeaderByHash ctx hash;
    Observe (c_metrics c) "HeaderByHash" t (FailoverRpcName (c_cfg c)) (is_nil err);;
    mret (r, err)
  else mret (r, nil).

Definition HeaderByNumber (c : client) (ctx : context_Context) (number : big_Int) : Go (types_Header * error) :=
  t ← time_Now;
  '(r, err) ← call (c_m c) ec_HeaderByNumber ctx number;
  Observe (c_metrics c) "HeaderByNumber" t (RpcName (c_cfg c)) (is_nil err);;
  if negb (is_nil err) then
    if negb (shouldFailover c err) then mret (r, err) else
    (* use failover rpc client *)
    t ← time_Now;
    '(r, err) ← call (c_b c) ec_HeaderByNumber ctx number;
    Observe (c_metrics c) "HeaderByNumber" t (FailoverRpcName (c_cfg c)) (is_nil err);;
    mret (r, err)
  else mret (r, nil).

Definition NetworkID (c : client) (ctx : context_Context) : Go (big_Int * error) :=
  t ← time_Now;
  '(r, err) ← call (c_m c) ec_NetworkID ctx tt;
  Observe (c_metrics c) "NetworkID" t (RpcName (c_cfg c)) (is_nil err);;
  if negb (is_nil err) then
    if negb (shouldFailover c err) then mret (r, err) else
    (* use failover rpc client *)
    t ← time_Now;
    '(r, err) ← call (c_b c) ec_NetworkID ctx tt;
    Observe (c_metrics c) "NetworkID" t (FailoverRpcName (c_cfg c)) (is_nil err);;
    mret (r, err)
  else mret (r, nil).

Definition NonceAt (c : client) (ctx : context_Context) (account : common_Address) (blockNumber : big_Int) : Go (uint64 * error) :=
  t ← time_Now;
  '(r, err) ← call (c_m c) ec_NonceAt ctx (account, blockNumber);
  Observe (c_metrics c) "NonceAt" t (RpcName (c_cfg c)) (is_nil err);;
  if negb (is_nil err) then
    if negb (shouldFailover c err) then mret (r, err) else
    (* use failover rpc client *)
    t ← time_Now;
    '(r, err) ← call (c_b c) ec_NonceAt ctx (account, blockNumber);
    Observe (c_metrics c) "NonceAt" t (FailoverRpcName (c_cfg c)) (is_nil err);;
    mret (r, err)
  else mret (r, nil).

Definition PeerCount (c : client) (ctx : context_Context) : Go (uint64 * error) :=
  t ← time_Now;
  '(r, err) ← call (c_m c) ec_PeerCount ctx tt;
  Observe (c_metrics c) "PeerCount" t (RpcName (c_cfg c)) (is_nil err);;
  if negb (is_nil err) then
    if negb (shouldFailover c err) then mret (r, err) else
    (* use failover rpc client *)
    t ← time_Now;
    '(r, err) ← call (c_b c) ec_PeerCount ctx tt;
    Observe (c_metrics c) "PeerCount" t (FailoverRpcName (c_cfg c)) (is_nil err);;
    mret (r, err)
  else mret (r, nil).

Definition PendingBalanceAt (c : client) (ctx : context_Context) (account : common_Address) : Go (big_Int * error) :=
  t ← time_Now;
  '(r, err) ← call (c_m c) ec_PendingBalanceAt ctx account;
  Observe (c_metrics c) "PendingBalanceAt" t (RpcName (c_cfg c)) (is_nil err);;
  if negb (is_nil err) then
    if negb (shouldFailover c err) then mret (r, err) else
    (* use failover rpc client *)
    t ← time_Now;
    '(r, err) ← call (c_b c) ec_PendingBalanceAt ctx account;
    Observe (c_metrics c) "PendingBalanceAt" t (FailoverRpcName (c_cfg c)) (is_nil err);;
    mret (r, err)
  else mret (r, nil).

Definition PendingCallContract (c : client) (ctx : context_Context) (msg : ethereum_CallMsg) : Go (bytes * error) :=
  t ← time_Now;
  '(r, err) ← call (c_m c) ec_PendingCallContract ctx msg;
  Observe (c_metrics c) "PendingCallContract" t (RpcName (c_cfg c)) (is_nil err);;
  if negb (is_nil err) then
    if negb (shouldFailover c err) then mret (r, err) else
    (* use failover rpc client *)
    t ← time_Now;
    '(r, err) ← call (c_b c) ec_PendingCallContract ctx msg;
    Observe (c_metrics c) "PendingCallContract" t (FailoverRpcName (c_cfg c)) (is_nil err);;
    mret (r, err)
  else mret (r, nil).

Definition PendingCodeAt (c : client) (ctx : context_Context) (account : common_Address) : Go (bytes * error) :=
  t ← time_Now;
  '(r, err) ← call (c_m c) ec_PendingCodeAt ctx account;
  Observe (c_metrics c) "PendingCodeAt" t (RpcName (c_cfg c)) (is_nil err);;
  if negb (is_nil err) then
    if negb (shouldFailover c err) then mret (r, err) else
    (* use failover rpc client *)
    t ← time_Now;
    '(r, err) ← call (c_b c) ec_PendingCodeAt ctx account;
    Observe (c_metrics c) "PendingCodeAt" t (FailoverRpcName (c_cfg c)) (is_nil err);;
    mret (r, err)
  else mret (r, nil).

Definition PendingNonceAt (c : client) (ctx : context_Context) (account : common_Address) : Go (uint64 * error) :=
  t ← time_Now;
  '(r, err) ← call (c_m c) ec_PendingNonceAt ctx account;
  Observe (c_metrics c) "PendingNonceAt" t (RpcName (c_cfg c)) (is_nil err);;
  if negb (is_nil err) then
    if negb (shouldFailover c err) then mret (r, err) else
    (* use failover rpc client *)
    t ← time_Now;
    '(r, err) ← call (c_b c) ec_PendingNonceAt ctx account;
    Observe (c_metrics c) "PendingNonceAt" t (FailoverRpcName (c_cfg c)) (is_nil err);;
    mret (r, err)
  else mret (r, nil).

Definition PendingStorageAt (c : client) (ctx : context_Context) (account : common_Address) (key : common_Hash) : Go (bytes * error) :=
  t ← time_Now;
  '(r, err) ← call (c_m c) ec_PendingStorageAt ctx (account, key);
  Observe (c_metrics c) "PendingStorageAt" t (RpcName (c_cfg c)) (is_nil err);;
  if negb (is_nil err) then
    if negb (shouldFailover c err) then mret (r, err) else
    (* use failover rpc client *)
    t ← time_Now;
    '(r, err) ← call (c_b c) ec_PendingStorageAt ctx (account, key);
    Observe (c_metrics c) "PendingStorageAt" t (FailoverRpcName (c_cfg c)) (is_nil err);;
    mret (r, err)
  else mret (r, nil).

Definition PendingTransactionCount (c : client) (ctx : context_Context) : Go (uint * error) :=
  t ← time_Now;
  '(r, err) ← call (c_m c) ec_PendingTransactionCount ctx tt;
  Observe (c_metrics c) "PendingTransactionCount" t (RpcName (c_cfg c)) (is_nil err);;
  if negb (is_nil err) then
    if negb (shouldFailover c err) then mret (r, err) else
    (* use failover rpc client *)
    t ← time_Now;
    '(r, err) ← call (c_b c) ec_PendingTransactionCount ctx tt;
    Observe (c_metrics c) "PendingTransactionCount" t (FailoverRpcName (c_cfg c)) (is_nil err);;
    mret (r, err)
  else mret (r, nil).

Definition SendTransaction (c : client) (ctx : context_Context) (tx : types_Transaction) : Go (error) :=
  t ← time_Now;
  '(_, err) ← call (c_m c) ec_SendTransaction ctx tx;
  Observe (c_metrics c) "SendTransaction" t (RpcName (c_cfg c)) (is_nil err);;
  if negb (is_nil err) then
    if negb (shouldFailover c err) then mret err else
    (* use failover rpc client *)
    t ← time_Now;
    '(_, err) ← call (c_b c) ec_SendTransaction ctx tx;
    Observe (c_metrics c) "SendTransaction" t (FailoverRpcName (c_cfg c)) (is_nil err);;
    mret err
  else mret nil.

Definition StorageAt (c : client) (ctx : context_Context) (account : common_Address) (key : common_Hash) (blockNumber : big_Int) : Go (bytes * error) :=
  t ← time_Now;
  '(r, err) ← call (c_m c) ec_StorageAt ctx (account, key, blockNumber);
  Observe (c_metrics c) "StorageAt" t (RpcName (c_cfg c)) (is_nil err);;
  if negb (is_nil err) then
    if negb (shouldFailover c err) then mret (r, err) else
    (* use failover rpc client *)
    t ← time_Now;
    '(r, err) ← call (c_b c) ec_StorageAt ctx (account, key, blockNumber);
    Observe (c_metrics c) "StorageAt" t (FailoverRpcName (c_cfg c)) (is_nil err);;
    mret (r, err)
  else mret (r, nil).

Definition SubscribeFilterLogs (c : client) (ctx : context_Context) (q : ethereum_FilterQuery) (ch : chan_Log) : Go (ethereum_Subscription * error) :=
  t ← time_Now;
  '(r, err) ← call (c_m c) ec_SubscribeFilterLogs ctx (q, ch);
  Observe (c_metrics c) "SubscribeFilterLogs" t (RpcName (c_cfg c)) (is_nil err);;
  if negb (is_nil err) then
    if negb (shouldFailover c err) then mret (r, err) else
    (* use failover rpc client *)
    t ← time_Now;
    '(r, err) ← call (c_b c) ec_SubscribeFilterLogs ctx (q, ch);
    Observe (c_metrics c) "SubscribeFilterLogs" t (FailoverRpcName (c_cfg c)) (is_nil err);;
    mret (r, err)
  else mret (r, nil).

Definition SubscribeNewHead (c : client) (ctx : context_Context) (ch : chan_Header) : Go (ethereum_Subscription * error) :=
  t ← time_Now;
  '(r, err) ← call (c_m c) ec_SubscribeNewHead ctx ch;
  Observe (c_metrics c) "SubscribeNewHead" t (RpcName (c_cfg c)) (is_nil err);;
  if negb (is_nil err) then
    if negb (shouldFailover c err) then mret (r, err) else
    (* use failover rpc client *)
    t ← time_Now;
    '(r, err) ← call (c_b c) ec_SubscribeNewHead ctx ch;
    Observe (c_metrics c) "SubscribeNewHead" t (FailoverRpcName (c_cfg c)) (is_nil err);;
    mret (r, err)
  else mret (r, nil).

Definition SuggestGasPrice (c : client) (ctx : context_Context) : Go (big_Int * error) :=
  t ← time_Now;
  '(r, err) ← call (c_m c) ec_SuggestGasPrice ctx tt;
  Observe (c_metrics c) "SuggestGasPrice" t (RpcName (c_cfg c)) (is_nil err);;
  if negb (is_nil err) then
    if negb (shouldFailover c err) then mret (r, err) else
    (* use failover rpc client *)
    t ← time_Now;
    '(r, err) ← call (c_b c) ec_SuggestGasPrice ctx tt;
    Observe (c_metrics c) "SuggestGasPrice" t (FailoverRpcName (c_cfg c)) (is_nil err);;
    mret (r, err)
  else mret (r, nil).

Definition SuggestGasTipCap (c : client) (ctx : context_Context) : Go (big_Int * error) :=
  t ← time_Now;
  '(r, err) ← call (c_m c) ec_SuggestGasTipCap ctx tt;
  Observe (c_metrics c) "SuggestGasTipCap" t (RpcName (c_cfg c)) (is_nil err);;
  if negb (is_nil err) then
    if negb (shouldFailover c err) then mret (r, err) else
    (* use failover rpc client *)
    t ← time_Now;
    '(r, err) ← call (c_b c) ec_SuggestGasTipCap ctx tt;
    Observe (c_metrics c) "SuggestGasTipCap" t (FailoverRpcName (c_cfg c)) (is_nil err);;
    mret (r, err)
  else mret (r, nil).

Definition SyncProgress (c : client) (ctx : context_Context) : Go (ethereum_SyncProgress * error) :=
  t ← time_Now;
  '(r, err) ← call (c_m c) ec_SyncProgress ctx tt;
  Observe (c_metrics c) "SyncProgress" t (RpcName (c_cfg c)) (is_nil err);;
  if negb (is_nil err) then
    if negb (shouldFailover c err) then mret (r, err) else
    (* use failover rpc client *)
    t ← time_Now;
    '(r, err) ← call (c_b c) ec_SyncProgress ctx tt;
    Observe (c_metrics c) "SyncProgress" t (FailoverRpcName (c_cfg c)) (is_nil err);;
    mret (r, err)
  else mret (r, nil).

Definition TransactionByHash (c : client) (ctx : context_Context) (hash : common_Hash) : Go (types_Transaction * bool * error) :=
  t ← time_Now;
  '(r1, r2, err) ← call (c_m c) ec_TransactionByHash ctx hash;
  Observe (c_metrics c) "BalanceAtTransactionByHash" t (RpcName (c_cfg c)) (is_nil err);;
  if negb (is_nil err) then
    if negb (shouldFailover c err) then mret (r1, r2, err) else
    (* use failover rpc client *)
    t ← time_Now;
    '(r1, r2, err) ← call (c_b c) ec_TransactionByHash ctx hash;
    Observe (c_metrics c) "BalanceAtTransactionByHash" t (FailoverRpcName (c_cfg c)) (is_nil err);;
    mret (r1, r2, err)
  else mret (r1, r2, nil).

Definition TransactionCount (c : client) (ctx : context_Context) (blockHash : common_Hash) : Go (uint * error) :=
  t ← time_Now;
  '(r, err) ← call (c_m c) ec_TransactionCount ctx blockHash;
  Observe (c_metrics c) "TransactionCount" t (RpcName (c_cfg c)) (is_nil err);;
  if negb (is_nil err) then
    if negb (shouldFailover c err) then mret (r, err) else
    (* use failover rpc client *)
    t ← time_Now;
    '(r, err) ← call (c_b c) ec_TransactionCount ctx blockHash;
    Observe (c_metrics c) "TransactionCount" t (FailoverRpcName (c_cfg c)) (is_nil err);;
    mret (r, err)
  else mret (r, nil).

Definition TransactionInBlock (c : client) (ctx : context_Context) (blockHash : common_Hash) (index : uint) : Go (types_Transaction * error) :=
  t ← time_Now;
  '(r, err) ← call (c_m c) ec_TransactionInBlock ctx (blockHash, index);
  Observe (c_metrics c) "TransactionInBlock" t (RpcName (c_cfg c)) (is_nil err);;
  if negb (is_nil err) then
    if negb (shouldFailover c err) then mret (r, err) else
    (* use failover rpc client *)
    t ← time_Now;
    '(r, err) ← call (c_b c) ec_TransactionInBlock ctx (blockHash, index);
    Observe (c_metrics c) "TransactionInBlock" t (FailoverRpcName (c_cfg c)) (is_nil err);;
    mret (r, err)
  else mret (r, nil).

Definition TransactionReceipt (c : client) (ctx : context_Context) (txHash : common_Hash) : Go (types_Receipt * error) :=
  t ← time_Now;
  '(r, err) ← call (c_m c) ec_TransactionReceipt ctx txHash;
  Observe (c_metrics c) "TransactionReceipt" t (RpcName (c_cfg c)) (is_nil err);;
  if negb (is_nil err) then
    if negb (shouldFailover c err) then mret (r, err) else
    (* use failover rpc client *)
    t ← time_Now;
    '(r, err) ← call (c_b c) ec_TransactionReceipt ctx txHash;
    Observe (c_metrics c) "TransactionReceipt" t (FailoverRpcName (c_cfg c)) (is_nil err);;
    mret (r, err)
  else mret (r, nil).

Definition TransactionSender (c : client) (ctx : context_Context) (tx : types_Transaction) (block : common_Hash) (index : uint) : Go (common_Address * error) :=
  t ← time_Now;
  '(r, err) ← call (c_m c) ec_TransactionSender ctx (tx, block, index);
  Observe (c_metrics c) "TransactionSender" t (RpcName (c_cfg c)) (is_nil err);;
  if negb (is_nil err) then
    if negb (shouldFailover c err) then mret (r, err) else
    (* use failover rpc client *)
    t ← time_Now;
    '(r, err) ← call (c_b c) ec_TransactionSender ctx (tx, block, index);
    Observe (c_metrics c) "TransactionSender" t (FailoverRpcName (c_cfg c)) (is_nil err);;
    mret (r, err)
  else mret (r, nil).
(** Every operation of the facade, by the remote method it forwards. *)
Definition invoke (c : client) (meth : Method) (ctx : context_Context) :
  Args meth → Go (Result meth * error) :=
  match meth with
  | ec_BalanceAt => λ '(a1, a2), BalanceAt c ctx a1 a2
  | ec_BlockByHash => λ a, BlockByHash c ctx a
  | ec_BlockByNumber => λ a, BlockByNumber c ctx a
  | ec_BlockNumber => λ _, BlockNumber c ctx
  | ec_CallContract => λ '(a1, a2), CallContract c ctx a1 a2
  | ec_CallContractAtHash => λ '(a1, a2), CallContractAtHash c ctx a1 a2
  | ec_ChainID => λ _, ChainID c ctx
  | ec_CodeAt => λ '(a1, a2), CodeAt c ctx a1 a2
  | ec_EstimateGas => λ a, EstimateGas c ctx a
  | ec_FilterLogs => λ a, FilterLogs c ctx a
  | ec_HeaderByHash => λ a, HeaderByHash c ctx a
  | ec_HeaderByNumber => λ a, HeaderByNumber c ctx a
  | ec_NetworkID => λ _, NetworkID c ctx
  | ec_NonceAt => λ '(a1, a2), NonceAt c ctx a1 a2
  | ec_PeerCount => λ _, PeerCount c ctx
  | ec_PendingBalanceAt => λ a, PendingBalanceAt c ctx a
  | ec_PendingCallContract => λ a, PendingCallContract c ctx a
  | ec_PendingCodeAt => λ a, PendingCodeAt c ctx a
  | ec_PendingNonceAt => λ a, PendingNonceAt c ctx a
  | ec_PendingStorageAt => λ '(a1, a2), PendingStorageAt c ctx a1 a2
  | ec_PendingTransactionCount => λ _, PendingTransactionCount c ctx
  | ec_SendTransaction => λ a, err ← SendTransaction c ctx a; mret (tt, err)
  | ec_StorageAt => λ '(a1, a2, a3), StorageAt c ctx a1 a2 a3
  | ec_SubscribeFilterLogs => λ '(a1, a2), SubscribeFilterLogs c ctx a1 a2
  | ec_SubscribeNewHead => λ a, SubscribeNewHead c ctx a
  | ec_SuggestGasPrice => λ _, SuggestGasPrice c ctx
  | ec_SuggestGasTipCap => λ _, SuggestGasTipCap c ctx
  | ec_SyncProgress => λ _, SyncProgress c ctx
  | ec_TransactionByHash => λ a, '(r1, r2, err) ← TransactionByHash c ctx a; mret ((r1, r2), err)
  | ec_TransactionCount => λ a, TransactionCount c ctx a
  | ec_TransactionInBlock => λ '(a1, a2), TransactionInBlock c ctx a1 a2
  | ec_TransactionReceipt => λ a, TransactionReceipt c ctx a
  | ec_TransactionSender => λ '(a1, a2, a3), TransactionSender c ctx a1 a2 a3
  end.
End Model.

Arguments ans_result {R} _.
Arguments ans_err {R} _.
Arguments ans_elapsed {R} _.
Arguments Returned {T A} _ _.
Arguments Panicked {T A} _ _.

(** ** The dispatch sequence, stated once

    What the thirty-three operations repeat, with the method label and the
    remote method as parameters.  The policy is asked about errors that
    are not nil only: its argument is an [err], not an [error]. *)

Inductive FailoverDecision : Type := NoFailover | Failover.

Section Dispatch.
Context {T : EthTypes} {net : Network}.

Definition classify (c : client) (e : err) : FailoverDecision :=
  if shouldFailover c (Some e) then Failover else NoFailover.

Definition dispatch (policy : err → FailoverDecision) (c : client) (opName : string)
    (meth : Method) (ctx : context_Context) (args : Args meth)
    : Go (Result meth * error) :=
  start ← time_Now;
  '(result, err) ← call (c_m c) meth ctx args;
  Observe (c_metrics c) opName start (RpcName (c_cfg c)) (is_nil err);;
  match err with
  | None => mret (result, nil)
  | Some e =>
      match policy e with
      | NoFailover => mret (result, err)
      | Failover =>
          start2 ← time_Now;
          '(result2, err2) ← call (c_b c) meth ctx args;
          Observe (c_metrics c) opName start2 (FailoverRpcName (c_cfg c))
            (is_nil err2);;
          mret (result2, err2)
      end
  end.

(** The method label each operation hands to [Observe]. *)
Definition observedLabel (meth : Method) : string :=
  match meth with
  | ec_TransactionByHash => "BalanceAtTransactionByHash"
  | _ => methodName meth
  end.

(** An error that tells of cancellation or of an expired deadline, as
    [errors.Is] finds it. *)
Definition indicates_cancellation (e : err) : bool :=
  errors_Is e context_Canceled || errors_Is e context_DeadlineExceeded.

(** The two samples one [Observe] leaves behind. *)
Definition observation (s : metrics) (method : string) (client : string)
    (successful : bool) (ms : Z) : list Sample :=
  let ls : Labels :=
    {[ labelMethod := method;
       labelClient := client;
       labelSuccess := strconv_FormatBool successful ]} in
  [CounterInc (req s) ls; HistogramObserve (latency s) ls ms].



(** The labels a sample was filed under. *)
Definition sample_labels (smp : Sample) : Labels :=
  match smp with
  | CounterInc _ ls => ls
  | HistogramObserve _ ls _ => ls
  end.

(** The connections that were dialed and not closed since, oldest
    first. *)
Definition track_open (open : list Conn) (ev : WireEvent) : list Conn :=
  match ev with
  | Dialed _ (inl conn) => open ++ [conn]
  | Dialed _ (inr _) => open
  | Called _ _ _ _ _ => open
  | Closed conn => filter (λ conn', conn' ≠ conn) open
  end.

Definition open_conns (evs : list WireEvent) : list Conn :=
  fold_left track_open evs [].

End Dispatch.

(** ** A concrete setting

    Every abstract type is a number, the context carries nothing, and the
    endpoints follow a script that reads the URL of the connection. *)

Definition plain_types : EthTypes :=
  {| context_Context := unit;
     common_Address := Z;
     common_Hash := Z;
     big_Int := Z;
     types_Block := Z;
     types_Header := Z;
     types_Transaction := Z;
     types_Receipt := Z;
     types_Log := Z;
     ethereum_CallMsg := Z;
     ethereum_FilterQuery := Z;
     ethereum_SyncProgress := Z;
     ethereum_Subscription := Z;
     chan_Log := Z;
     chan_Header := Z |}.

Definition scripted_result (n : Z) (meth : Method)
    : @Result plain_types meth :=
  match meth with
  | ec_BalanceAt => n
  | ec_BlockByHash => n
  | ec_BlockByNumber => n
  | ec_BlockNumber => 0%N
  | ec_CallContract => []
  | ec_CallContractAtHash => []
  | ec_ChainID => n
  | ec_CodeAt => []
  | ec_EstimateGas => 0%N
  | ec_FilterLogs => []
  | ec_HeaderByHash => n
  | ec_HeaderByNumber => n
  | ec_NetworkID => n
  | ec_NonceAt => 0%N
  | ec_PeerCount => 0%N
  | ec_PendingBalanceAt => n
  | ec_PendingCallContract => []
  | ec_PendingCodeAt => []
  | ec_PendingNonceAt => 0%N
  | ec_PendingStorageAt => []
  | ec_PendingTransactionCount => 0%N
  | ec_SendTransaction => tt
  | ec_StorageAt => []
  | ec_SubscribeFilterLogs => n
  | ec_SubscribeNewHead => n
  | ec_SuggestGasPrice => n
  | ec_SuggestGasTipCap => n
  | ec_SyncProgress => n
  | ec_TransactionByHash => (n, false)
  | ec_TransactionCount => 0%N
  | ec_TransactionInBlock => n
  | ec_TransactionReceipt => n
  | ec_TransactionSender => n
  end.

Definition scripted_error (rawurl : string) : error :=
  if String.eqb rawurl "http://refusing" then
    Some (errorString "connection refused")
  else if String.eqb rawurl "http://cancelled" then
    Some context_Canceled
  else if String.eqb rawurl "http://late" then
    Some context_DeadlineExceeded
  else if String.eqb rawurl "http://wrapping" then
    Some (wrapError "Post http://wrapping: " context_Canceled)
  else nil.

Definition scripted_net : @Network plain_types :=
  {| dial_error rawurl _ _ :=
       if String.eqb rawurl "http://unreachable" then
         Some (errorString "dial tcp: no route to host")
       else nil;
     answer conn meth _ _ _ _ :=
       {| ans_result := scripted_result (100 + Z.of_nat (conn_id conn)) meth;
          ans_err := scripted_error (conn_url conn);
          ans_elapsed := 5000000 |} |}.

Definition scripted_cfg (enable : bool) (primary : string) (backup : string)
    : Config :=
  {| EnablePrometheus := enable;
     RpcUrl := primary;
     RpcName := "nodereal";
     FailoverRpcUrl := backup;
     FailoverRpcName := "alchemy" |}.

(** The client [New "my-app" "ethereum" (scripted_cfg ...)] builds in the
    empty world. *)
Definition scripted_client (enable : bool) (primary : string) (backup : string)
    : client :=
  {| c_metrics := if enable then Some (newMetrics "my-app" "ethereum") else None;
     c_cfg := scripted_cfg enable primary backup;
     c_m := {| conn_id := 0; conn_url := primary |};
     c_b := {| conn_id := 1; conn_url := backup |} |}.

Definition healthy_client : client :=
  scripted_client true "http://nodereal" "http://alchemy".
Definition unrecorded_client : client :=
  scripted_client false "http://nodereal" "http://alchemy".

(** A name of 32 bytes, one too many, and one of 31. *)
Definition name32 : string := "abcdefghijklmnopqrstuvwxyz012345".
Definition name31 : string := "abcdefghijklmnopqrstuvwxyz01234".

Definition long_name_cfg : Config :=
  {| EnablePrometheus := true;
     RpcUrl := "http://nodereal";
     RpcName := name31;
     FailoverRpcUrl := "http://alchemy";
     FailoverRpcName := name32 |}.

Definition empty_world : @World plain_types :=
  {| clock := 0; wire := []; registry := []; recorded := []; logged := [] |}.

(** ** config.go: loading the config from the environment

    [envconfig.Process] belongs to another repository: what it makes of
    the environment is an oracle, as the network is. *)

Class Environment : Type := {
  envconfig_Process : string → Config → Config + err;
}.

(** How a function that may end the process comes back: with a value,
    with a panic, or not at all ([log.Fatal] logs the error and exits
    with status 1). *)
Inductive Startup (A : Type) : Type :=
| Loaded (a : A)
| StartupPanicked (e : err)
| Fatal (e : err).
Arguments Loaded {A} _.
Arguments StartupPanicked {A} _.
Arguments Fatal {A} _.

Definition DefaultEnvPrefix : string := "ethclient".

(** [&Config{}] *)
Definition zero_Config : Config :=
  {| EnablePrometheus := false; RpcUrl := ""; RpcName := "";
     FailoverRpcUrl := ""; FailoverRpcName := "" |}.

Section Loading.
Context {env : Environment}.

(** [envconfig.MustProcess(prefix, spec)]: [Process], and a panic on its
    error. *)
Definition envconfig_MustProcess (prefix : string) (spec : Config)
    : Startup Config :=
  match envconfig_Process prefix spec with
  | inl config => Loaded config
  | inr e => StartupPanicked e
  end.

Definition ConfigFromEnv : Startup Config :=
  match envconfig_MustProcess DefaultEnvPrefix zero_Config with
  | Loaded config =>
      match Valid config with
      | Some e => Fatal e
      | None => Loaded config
      end
  | StartupPanicked e => StartupPanicked e
  | Fatal e => Fatal e
  end.

Definition ConfigFromEnvPrefix (prefix : string) : Startup Config :=
  match envconfig_MustProcess prefix zero_Config with
  | Loaded config =>
      match Valid config with
      | Some e => Fatal e
      | None => Loaded config
      end
  | StartupPanicked e => StartupPanicked e
  | Fatal e => Fatal e
  end.

End Loading.

(** An environment as in the README: under the prefix "ethereum" the two
    endpoints and their names; under "longname" a failover name of 32
    bytes; nothing under any other prefix. *)
Definition scripted_env : Environment :=
  {| envconfig_Process prefix _ :=
       if String.eqb prefix "ethereum" then
         inl (scripted_cfg true "http://nodereal" "http://alchemy")
       else if String.eqb prefix "longname" then inl long_name_cfg
       else inr (errorString "required key RPCURL missing value") |}.

(** ** Callers: a run of operations, and counts over the world *)

Section Callers.
Context {T : EthTypes} {net : Network}.








End Callers.

Section Proofs.
Context {T : EthTypes} {net : Network}.

(** *** The operations are instances of the dispatch sequence *)

Ltac split_arguments :=
  repeat match goal with
         | a : (_ * _)%type |- _ => destruct a
         | a : unit |- _ => destruct a
         end.

Ltac dispatch_cases :=
  repeat (cbn [is_nil negb ans_err ans_result ans_elapsed]; try reflexivity;
    match goal with
    | r : Result ec_SendTransaction |- _ => destruct r
    | r : Result ec_TransactionByHash |- _ => destruct r
    | |- context [answer ?a ?b ?c ?d ?t ?h] =>
        destruct (answer a b c d t h) as [? [?|] ?]
    | |- context [Observe ?s ?m ?t ?cl ?b ?w] =>
        destruct (Observe s m t cl b w) as [[] ?|? ?]
    | |- context [shouldFailover ?c ?e] => destruct (shouldFailover c e)
    end).

Lemma invoke_dispatch (c : client) (meth : Method) ctx (args : Args meth) w :
  invoke c meth ctx args w
  = dispatch (classify c) c (observedLabel meth) meth ctx args w.
Proof.
  destruct meth; simpl in args; split_arguments;
  cbv [invoke dispatch classify observedLabel methodName
       mbind mret Go_bind Go_ret time_Now call
       BalanceAt BlockByHash BlockByNumber BlockNumber CallContract
       CallContractAtHash ChainID CodeAt EstimateGas FilterLogs HeaderByHash
       HeaderByNumber NetworkID NonceAt PeerCount PendingBalanceAt
       PendingCallContract PendingCodeAt PendingNonceAt PendingStorageAt
       PendingTransactionCount SendTransaction StorageAt SubscribeFilterLogs
       SubscribeNewHead SuggestGasPrice SuggestGasTipCap SyncProgress
       TransactionByHash TransactionCount TransactionInBlock
       TransactionReceipt TransactionSender];
  dispatch_cases.
Qed.


(** *** How the pieces act on the world *)




Lemma clock_after_call (t d : Z) : t + d - t = d.
Proof. lia. Qed.

Ltac run_dispatch :=
  cbv [dispatch mbind mret Go_bind Go_ret time_Now time_Since call
       Observe Counter_Inc Histogram_Observe panic].

Ltac world_fields :=
  cbn [wire recorded registry logged clock tick on_wire record_sample].

(** With a recorder and a primary answer without error, the sequence
    stops after one call and one observation. *)
Lemma dispatch_primary_ok policy c s opName meth ctx (args : Args meth) w :
  c_metrics c = Some s →
  let a := answer (c_m c) meth ctx args (clock w) (wire w) in
  ans_err a = nil →
  ∃ w', dispatch policy c opName meth ctx args w
          = Returned (ans_result a, nil) w'
    ∧ wire w' = wire w ++ [Called (c_m c) meth ctx args a]
    ∧ recorded w' = recorded w
        ++ observation s opName (RpcName (c_cfg c)) true
             (Milliseconds (ans_elapsed a))
    ∧ registry w' = registry w.
Proof.
  intros Hs a Ha. run_dispatch. fold a. rewrite Hs, Ha.
  cbn [is_nil]. eexists. split; [reflexivity|]. world_fields.
  rewrite clock_after_call, <- app_assoc. done.
Qed.

(** With a recorder, a primary error and the verdict [NoFailover], the
    sequence stops as well and hands the primary's answer back. *)
Lemma dispatch_no_failover policy c s opName meth ctx (args : Args meth) w e :
  c_metrics c = Some s →
  let a := answer (c_m c) meth ctx args (clock w) (wire w) in
  ans_err a = Some e →
  policy e = NoFailover →
  ∃ w', dispatch policy c opName meth ctx args w
          = Returned (ans_result a, Some e) w'
    ∧ wire w' = wire w ++ [Called (c_m c) meth ctx args a]
    ∧ recorded w' = recorded w
        ++ observation s opName (RpcName (c_cfg c)) false
             (Milliseconds (ans_elapsed a))
    ∧ registry w' = registry w.
Proof.
  intros Hs a Ha Hp. run_dispatch. fold a. rewrite Hs, Ha, Hp.
  cbn [is_nil]. eexists. split; [reflexivity|]. world_fields.
  rewrite clock_after_call, <- app_assoc. done.
Qed.

(** With a recorder, a primary error and the verdict [Failover], the
    secondary is called once, in the world the primary call left, and
    its answer is the outcome. *)
Lemma dispatch_failover policy c s opName meth ctx (args : Args meth) w e :
  c_metrics c = Some s →
  let a1 := answer (c_m c) meth ctx args (clock w) (wire w) in
  let a2 := answer (c_b c) meth ctx args (clock w + ans_elapsed a1)
              (wire w ++ [Called (c_m c) meth ctx args a1]) in
  ans_err a1 = Some e →
  policy e = Failover →
  ∃ w', dispatch policy c opName meth ctx args w
          = Returned (ans_result a2, ans_err a2) w'
    ∧ wire w' = wire w ++ [Called (c_m c) meth ctx args a1;
                           Called (c_b c) meth ctx args a2]
    ∧ recorded w' = recorded w
        ++ observation s opName (RpcName (c_cfg c)) false
             (Milliseconds (ans_elapsed a1))
        ++ observation s opName (FailoverRpcName (c_cfg c))
             (is_nil (ans_err a2)) (Milliseconds (ans_elapsed a2))
    ∧ registry w' = registry w.
Proof.
  intros Hs a1 a2 Ha Hp. run_dispatch. fold a1. rewrite Hs, Ha, Hp.
  cbn [is_nil]. world_fields. fold a2.
  eexists. split; [reflexivity|]. world_fields.
  rewrite !clock_after_call, <- !app_assoc. done.
Qed.

(** Without a recorder the first [Observe] panics, right after the
    primary call. *)
Lemma dispatch_nil_metrics policy c opName meth ctx (args : Args meth) w :
  c_metrics c = None →
  let a := answer (c_m c) meth ctx args (clock w) (wire w) in
  dispatch policy c opName meth ctx args w
  = Panicked nil_dereference
      (tick (ans_elapsed a) (on_wire (Called (c_m c) meth ctx args a) w)).
Proof. intros Hs a. run_dispatch. fold a. by rewrite Hs. Qed.

(** *** The failover policy *)


(** Left to itself the policy would fail over on a nil error; the
    operations ask it only after [err != nil]. *)
Lemma shouldFailover_nil c : shouldFailover c nil = true.
Proof. reflexivity. Qed.



Lemma errors_Is_refl e : errors_Is e e = true.
Proof. destruct e; cbn [errors_Is]; by rewrite bool_decide_eq_true_2. Qed.

(** An error that does not tell of cancellation is in particular not
    one of the two sentinels. *)
Lemma not_indicating_is_not_sentinel e :
  indicates_cancellation e = false →
  e ≠ context_Canceled ∧ e ≠ context_DeadlineExceeded.
Proof.
  unfold indicates_cancellation. intros H.
  apply orb_false_iff in H as [H1 H2].
  split; intros ->; by rewrite errors_Is_refl in *.
Qed.

(** *** The three ways an operation can go *)





(** *** The method label *)

Lemma observedLabel_is_methodName meth :
  meth ≠ ec_TransactionByHash → observedLabel meth = methodName meth.
Proof. by destruct meth. Qed.

Lemma observation_method s method client ok ms smp :
  smp ∈ observation s method client ok ms →
  sample_labels smp !! labelMethod = Some method.
Proof.
  unfold observation. intros Hin.
  apply elem_of_cons in Hin as [->|Hin];
    [|apply list_elem_of_singleton in Hin as ->];
    cbn [sample_labels]; apply lookup_insert_eq.
Qed.

(** With a recorder, every operation returns, records at least one
    sample, and files all its samples under [observedLabel]: for all
    operations but [TransactionByHash], under their own name. *)
Lemma invoke_method_labels c s meth ctx (args : Args meth) w :
  c_metrics c = Some s →
  ∃ r w' new, invoke c meth ctx args w = Returned r w'
    ∧ recorded w' = recorded w ++ new
    ∧ new ≠ []
    ∧ ∀ smp, smp ∈ new →
        sample_labels smp !! labelMethod = Some (observedLabel meth).
Proof.
  intros Hs. rewrite invoke_dispatch.
  destruct (ans_err (answer (c_m c) meth ctx args (clock w) (wire w)))
    as [e|] eqn:Ha.
  - destruct (classify c e) eqn:Hp.
    + destruct (dispatch_no_failover (classify c) c s (observedLabel meth)
                  meth ctx args w e Hs Ha Hp) as (w' & Hrun & _ & Hrec & _).
      eexists _, w', _. repeat split; [exact Hrun | exact Hrec | done |].
      intros smp Hin. by eapply observation_method.
    + destruct (dispatch_failover (classify c) c s (observedLabel meth)
                  meth ctx args w e Hs Ha Hp) as (w' & Hrun & _ & Hrec & _).
      eexists _, w', _. repeat split; [exact Hrun | exact Hrec | done |].
      intros smp Hin.
      apply elem_of_app in Hin as [Hin|Hin]; by eapply observation_method.
  - destruct (dispatch_primary_ok (classify c) c s (observedLabel meth)
                meth ctx args w Hs Ha) as (w' & Hrun & _ & Hrec & _).
    eexists _, w', _. repeat split; [exact Hrun | exact Hrec | done |].
    intros smp Hin. by eapply observation_method.
Qed.

(** C5 fails for one operation: [TransactionByHash] hands [Observe] the
    label "BalanceAtTransactionByHash", which is not its name.  All other
    operations use their own name ([observedLabel_is_methodName]). *)
Theorem TransactionByHash_label c s ctx hash w :
  c_metrics c = Some s →
  let a := answer (c_m c) ec_TransactionByHash ctx hash (clock w) (wire w) in
  ans_err a = nil →
  ∃ w', TransactionByHash c ctx hash w
          = Returned ((ans_result a).1, (ans_result a).2, nil) w'
    ∧ recorded w' = recorded w
        ++ observation s "BalanceAtTransactionByHash" (RpcName (c_cfg c)) true
             (Milliseconds (ans_elapsed a))
    ∧ "BalanceAtTransactionByHash" ≠ methodName ec_TransactionByHash.
Proof.
  intros Hs a Ha.
  cbv [TransactionByHash mbind mret Go_bind Go_ret time_Now time_Since call
       Observe Counter_Inc Histogram_Observe panic].
  fold a. rewrite Hs, Ha. destruct (ans_result a) as [tx isPending].
  cbn [is_nil negb fst snd]. eexists. split; [reflexivity|]. world_fields.
  rewrite clock_after_call, <- app_assoc. done.
Qed.

(** *** No recorder *)

(** C6 fails: with a nil recorder every operation panics in its first
    [Observe], after the primary call went out; nothing is returned. *)
Theorem operations_panic_without_recorder c meth ctx (args : Args meth) w :
  c_metrics c = None →
  let a := answer (c_m c) meth ctx args (clock w) (wire w) in
  invoke c meth ctx args w
  = Panicked nil_dereference
      (tick (ans_elapsed a) (on_wire (Called (c_m c) meth ctx args a) w)).
Proof.
  intros Hs a. rewrite invoke_dispatch. by apply dispatch_nil_metrics.
Qed.

(** *** Construction *)

Ltac run_New :=
  cbv [New mbind mret Go_bind Go_ret logger_Info ethclient_Dial].

Ltac settle :=
  cbn [nil clock wire registry recorded logged log_line on_wire with_registry].

Lemma New_invalid appName chain cfg w e :
  Valid cfg = Some e →
  New appName chain cfg w
  = Returned (None, Some e) (log_line (greeting appName chain) w).
Proof. intros Hv. run_New. by rewrite Hv. Qed.

Lemma New_primary_dial_fails appName chain cfg w e :
  Valid cfg = nil →
  dial_error (RpcUrl cfg) (clock w) (wire w) = Some e →
  New appName chain cfg w
  = Returned (None, Some e)
      (on_wire (Dialed (RpcUrl cfg) (inr e))
         (log_line (greeting appName chain) w)).
Proof. intros Hv Hd. run_New. rewrite Hv. settle. by rewrite Hd. Qed.

Lemma New_secondary_dial_fails appName chain cfg w e :
  let m := {| conn_id := length (wire w); conn_url := RpcUrl cfg |} in
  Valid cfg = nil →
  dial_error (RpcUrl cfg) (clock w) (wire w) = nil →
  dial_error (FailoverRpcUrl cfg) (clock w)
    (wire w ++ [Dialed (RpcUrl cfg) (inl m)]) = Some e →
  New appName chain cfg w
  = Returned (None, Some e)
      (on_wire (Dialed (FailoverRpcUrl cfg) (inr e))
         (on_wire (Dialed (RpcUrl cfg) (inl m))
            (log_line (greeting appName chain) w))).
Proof.
  intros m Hv Hd1 Hd2. run_New. rewrite Hv. settle. rewrite Hd1. settle.
  fold m. by rewrite Hd2.
Qed.

Lemma New_returns_client appName chain cfg w c e w' :
  let m := {| conn_id := length (wire w); conn_url := RpcUrl cfg |} in
  let b := {| conn_id := S (length (wire w));
              conn_url := FailoverRpcUrl cfg |} in
  New appName chain cfg w = Returned (Some c, e) w' →
  e = nil
  ∧ Valid cfg = nil
  ∧ dial_error (RpcUrl cfg) (clock w) (wire w) = nil
  ∧ dial_error (FailoverRpcUrl cfg) (clock w)
      (wire w ++ [Dialed (RpcUrl cfg) (inl m)]) = nil
  ∧ c_cfg c = cfg ∧ c_m c = m ∧ c_b c = b
  ∧ c_metrics c
    = (if EnablePrometheus cfg then Some (newMetrics appName chain) else None)
  ∧ wire w' = wire w ++ [Dialed (RpcUrl cfg) (inl m);
                         Dialed (FailoverRpcUrl cfg) (inl b)]
  ∧ recorded w' = recorded w
  ∧ registry w'
    = registry w
      ++ (if EnablePrometheus cfg
          then [CounterCollector (req (newMetrics appName chain));
                HistogramCollector (latency (newMetrics appName chain))]
          else []).
Proof.
  intros m b. run_New.
  destruct (Valid cfg); [done|]. settle. fold m.
  destruct (dial_error (RpcUrl cfg) _ _); [done|]. settle.
  destruct (dial_error (FailoverRpcUrl cfg) _ _); [done|]. settle.
  rewrite length_app, Nat.add_1_r. fold b.
  destruct (EnablePrometheus cfg).
  - cbv [Register prometheus_MustRegister mbind mret Go_bind Go_ret].
    settle. case_bool_decide; [done|]. settle.
    case_bool_decide; [done|].
    intros [= <- <- <-]. cbn [c_cfg c_m c_b c_metrics]. settle.
    by rewrite <- !app_assoc.
  - intros [= <- <- <-]. cbn [c_cfg c_m c_b c_metrics]. settle.
    by rewrite <- !app_assoc, app_nil_r.
Qed.

(** With a valid config, both endpoints up and, when metrics are
    enabled, no collector of the same name and constant labels in the
    registry yet, [New] returns a facade. *)
Lemma New_succeeds appName chain cfg w :
  let m := {| conn_id := length (wire w); conn_url := RpcUrl cfg |} in
  Valid cfg = nil →
  dial_error (RpcUrl cfg) (clock w) (wire w) = nil →
  dial_error (FailoverRpcUrl cfg) (clock w)
    (wire w ++ [Dialed (RpcUrl cfg) (inl m)]) = nil →
  (EnablePrometheus cfg = true →
   ∀ col, col ∈ registry w →
     collector_id col
       ≠ collector_id (CounterCollector (req (newMetrics appName chain)))
     ∧ collector_id col
       ≠ collector_id (HistogramCollector (latency (newMetrics appName chain)))) →
  ∃ c w', New appName chain cfg w = Returned (Some c, nil) w'.
Proof.
  intros m Hv Hd1 Hd2 Hfree. run_New. rewrite Hv. settle. rewrite Hd1. settle.
  fold m. rewrite Hd2. settle.
  destruct (EnablePrometheus cfg); [|by eexists _, _].
  cbv [Register prometheus_MustRegister mbind mret Go_bind Go_ret]. settle.
  rewrite bool_decide_eq_false_2.
  - settle. rewrite bool_decide_eq_false_2; [by eexists _, _|].
    rewrite fmap_app. intros Hin.
    apply elem_of_app in Hin as [Hin|Hin].
    + apply list_elem_of_fmap in Hin as (col & Heq & Hcol).
      by destruct (Hfree eq_refl col Hcol) as [_ Hne].
    + by apply list_elem_of_singleton in Hin.
  - intros Hin.
    apply list_elem_of_fmap in Hin as (col & Heq & Hcol).
    by destruct (Hfree eq_refl col Hcol) as [Hne _].
Qed.

(** C7: construction fails when a dial fails.  If the primary dial fails,
    or the primary dial succeeds and the secondary dial fails, [New]
    returns an error and no facade, and leaves the registry and the
    recorded samples as they were; with a valid config the error is the
    one of the failed dial.  And a facade is returned only when both
    dials succeeded. *)
Theorem New_needs_both_dials appName chain cfg w :
  let m := {| conn_id := length (wire w); conn_url := RpcUrl cfg |} in
  (∀ e, dial_error (RpcUrl cfg) (clock w) (wire w) = Some e →
     ∃ e' w', New appName chain cfg w = Returned (None, Some e') w'
       ∧ (Valid cfg = nil → e' = e)
       ∧ registry w' = registry w ∧ recorded w' = recorded w)
  ∧ (∀ e, dial_error (RpcUrl cfg) (clock w) (wire w) = nil →
     dial_error (FailoverRpcUrl cfg) (clock w)
       (wire w ++ [Dialed (RpcUrl cfg) (inl m)]) = Some e →
     ∃ e' w', New appName chain cfg w = Returned (None, Some e') w'
       ∧ (Valid cfg = nil → e' = e)
       ∧ registry w' = registry w ∧ recorded w' = recorded w)
  ∧ (∀ c e w', New appName chain cfg w = Returned (Some c, e) w' →
     dial_error (RpcUrl cfg) (clock w) (wire w) = nil
     ∧ dial_error (FailoverRpcUrl cfg) (clock w)
         (wire w ++ [Dialed (RpcUrl cfg) (inl m)]) = nil).
Proof.
  intros m. split; [|split].
  - intros e Hd. destruct (Valid cfg) as [ev|] eqn:Hv.
    + exists ev. eexists. rewrite (New_invalid _ _ _ _ ev Hv).
      by repeat split.
    + exists e. eexists. rewrite (New_primary_dial_fails _ _ _ _ e Hv Hd).
      by repeat split.
  - intros e Hd1 Hd2. destruct (Valid cfg) as [ev|] eqn:Hv.
    + exists ev. eexists. rewrite (New_invalid _ _ _ _ ev Hv).
      by repeat split.
    + exists e. eexists.
      rewrite (New_secondary_dial_fails _ _ _ _ e Hv Hd1 Hd2).
      by repeat split.
  - intros c e w' Hnew.
    apply New_returns_client in Hnew as (_ & _ & H1 & H2 & _). by split.
Qed.

Lemma open_conns_app evs evs' :
  open_conns (evs ++ evs') = fold_left track_open evs' (open_conns evs).
Proof. unfold open_conns. by rewrite fold_left_app. Qed.

(** C10: when the primary dial succeeds and the secondary dial fails,
    [New] returns the error of the secondary dial and does nothing more
    on the network than the two dials: the primary connection is not
    closed, and stays among the open ones. *)
Theorem New_leaves_primary_open appName chain cfg w e :
  let m := {| conn_id := length (wire w); conn_url := RpcUrl cfg |} in
  Valid cfg = nil →
  dial_error (RpcUrl cfg) (clock w) (wire w) = nil →
  dial_error (FailoverRpcUrl cfg) (clock w)
    (wire w ++ [Dialed (RpcUrl cfg) (inl m)]) = Some e →
  ∃ w', New appName chain cfg w = Returned (None, Some e) w'
    ∧ wire w' = wire w ++ [Dialed (RpcUrl cfg) (inl m);
                           Dialed (FailoverRpcUrl cfg) (inr e)]
    ∧ m ∈ open_conns (wire w').
Proof.
  intros m Hv Hd1 Hd2. eexists.
  rewrite (New_secondary_dial_fails _ _ _ _ e Hv Hd1 Hd2).
  split; [reflexivity|].
  cbn [wire on_wire log_line]. fold m. rewrite <- app_assoc.
  split; [reflexivity|].
  rewrite open_conns_app. cbn [fold_left track_open].
  apply elem_of_app. right. by apply list_elem_of_singleton.
Qed.

(** C9: when [New] returns a facade for a config with metrics enabled,
    the facade's recorder holds the counter [rpc_request_total] and the
    histogram [rpc_latency_milliseconds], both with the variable labels
    method, client and success and with the constant labels app and chain
    set to the arguments of [New]; the histogram's bounds are the powers
    of two from 2 to 2048; and these two collectors, and nothing else,
    were added to the registry. *)
Theorem New_builds_two_aggregates appName chain cfg w c e w' :
  New appName chain cfg w = Returned (Some c, e) w' →
  EnablePrometheus cfg = true →
  ∃ s, c_metrics c = Some s
    ∧ cv_Name (req s) = "rpc_request_total"
    ∧ hv_Name (latency s) = "rpc_latency_milliseconds"
    ∧ cv_labelNames (req s) = ["method"; "client"; "success"]
    ∧ hv_labelNames (latency s) = ["method"; "client"; "success"]
    ∧ cv_ConstLabels (req s) = {[ "app" := appName; "chain" := chain ]}
    ∧ hv_ConstLabels (latency s) = {[ "app" := appName; "chain" := chain ]}
    ∧ dom (cv_ConstLabels (req s)) = ({[ "app"; "chain" ]} : gset string)
    ∧ hv_Buckets (latency s)
      = [2; 4; 8; 16; 32; 64; 128; 256; 512; 1024; 2048]
    ∧ hv_Buckets (latency s) = (λ k, 2 ^ Z.of_nat k) <$> seq 1 11
    ∧ registry w' = registry w ++ [CounterCollector (req s);
                                   HistogramCollector (latency s)].
Proof.
  intros Hnew Hon.
  apply New_returns_client in Hnew
    as (_ & _ & _ & _ & _ & _ & _ & Hs & _ & _ & Hreg).
  rewrite Hon in Hs, Hreg.
  exists (newMetrics appName chain).
  repeat split; done.
Qed.

(** A config with metrics disabled gives a facade without recorder. *)
Lemma New_without_metrics appName chain cfg w c e w' :
  New appName chain cfg w = Returned (Some c, e) w' →
  EnablePrometheus cfg = false →
  c_metrics c = None ∧ registry w' = registry w.
Proof.
  intros Hnew Hoff.
  apply New_returns_client in Hnew
    as (_ & _ & _ & _ & _ & _ & _ & Hs & _ & _ & Hreg).
  rewrite Hoff in Hs, Hreg. by rewrite app_nil_r in Hreg.
Qed.

(** The handles of a facade are two different connections. *)
Lemma New_conns_differ appName chain cfg w c e w' :
  New appName chain cfg w = Returned (Some c, e) w' → c_m c ≠ c_b c.
Proof.
  intros Hnew.
  apply New_returns_client in Hnew
    as (_ & _ & _ & _ & _ & Hm & Hb & _).
  rewrite Hm, Hb. intros [= Hid _]. lia.
Qed.

(** The labels [Observe] uses are the variable labels the vectors of
    [newMetrics] were declared with. *)
Lemma observation_labels appName chain method client ok ms smp :
  smp ∈ observation (newMetrics appName chain) method client ok ms →
  match smp with
  | CounterInc v ls => dom ls = (list_to_set (cv_labelNames v) : gset string)
  | HistogramObserve v ls _ =>
      dom ls = (list_to_set (hv_labelNames v) : gset string)
  end.
Proof.
  unfold observation. intros Hin.
  apply elem_of_cons in Hin as [->|Hin];
    [|apply list_elem_of_singleton in Hin as ->];
    cbn [newMetrics req latency cv_labelNames hv_labelNames labels list_to_set];
    rewrite !dom_insert_L, dom_singleton_L; set_solver.
Qed.

(** [Close] closes both connections. *)
Lemma Close_closes_both c w :
  ∃ w', Close c w = Returned () w'
    ∧ wire w' = wire w ++ [Closed (c_m c); Closed (c_b c)]
    ∧ (c_m c ∉ open_conns (wire w'))
    ∧ (c_b c ∉ open_conns (wire w')).
Proof.
  eexists. split; [reflexivity|].
  cbn [wire on_wire]. rewrite <- app_assoc. split; [reflexivity|].
  rewrite open_conns_app. cbn [fold_left track_open app].
  split; intros Hin.
  - apply list_elem_of_filter in Hin as [_ Hin].
    by apply list_elem_of_filter in Hin as [Hne _].
  - by apply list_elem_of_filter in Hin as [Hne _].
Qed.

(** *** Config validation *)

(** C8: [Valid] returns an error when one of the two names has 32 bytes
    or more, and nil when both have at most 31, whatever the other
    fields hold. *)
Theorem Valid_length_limit cfg :
  ((32 ≤ len (RpcName cfg))%nat ∨ (32 ≤ len (FailoverRpcName cfg))%nat
   → ∃ e, Valid cfg = Some e)
  ∧ ((len (RpcName cfg) ≤ 31)%nat ∧ (len (FailoverRpcName cfg) ≤ 31)%nat
     → Valid cfg = nil).
Proof.
  unfold Valid, nameLenLimit, fmt_Errorf.
  split.
  - intros [H|H].
    + apply Nat.leb_le in H. rewrite H. eauto.
    + destruct (32 <=? len (RpcName cfg))%nat; [eauto|].
      apply Nat.leb_le in H. rewrite H. eauto.
  - intros [H1 H2].
    assert ((32 <=? len (RpcName cfg))%nat = false) as ->
      by (apply Nat.leb_gt; lia).
    assert ((32 <=? len (FailoverRpcName cfg))%nat = false) as ->
      by (apply Nat.leb_gt; lia).
    reflexivity.
Qed.

(** ** Beyond the three cases: what every operation does *)










(** X3: no two operations share a method label, the label of
    [TransactionByHash] included: the samples of different operations
    never fall into the same series. *)
Theorem labels_tell_operations_apart meth1 meth2 :
  meth1 ≠ meth2 → observedLabel meth1 ≠ observedLabel meth2.
Proof.
  intros Hne Heq. apply Hne. clear Hne.
  destruct meth1, meth2; try reflexivity; discriminate Heq.
Qed.

(** ** The recorder *)




(** ** Construction and teardown *)

(** X6: with a config that [Valid] rejects, [New] returns that error and
    no facade before it dials anything: the wire, the open connections,
    the registry and the samples are as before, and the one thing done is
    the first log line. *)
Theorem New_validates_before_dialing appName chain cfg w e :
  Valid cfg = Some e →
  ∃ w', New appName chain cfg w = Returned (None, Some e) w'
    ∧ wire w' = wire w
    ∧ registry w' = registry w
    ∧ recorded w' = recorded w
    ∧ logged w' = logged w ++ [greeting appName chain].
Proof.
  intros Hv. eexists. rewrite (New_invalid _ _ _ _ e Hv). by repeat split.
Qed.

(** X7: when the primary dial fails, [New] returns its error without
    dialing the secondary endpoint: the failed dial is the only event on
    the wire, and no connection is opened. *)
Theorem New_stops_at_primary_dial appName chain cfg w e :
  Valid cfg = nil →
  dial_error (RpcUrl cfg) (clock w) (wire w) = Some e →
  ∃ w', New appName chain cfg w = Returned (None, Some e) w'
    ∧ wire w' = wire w ++ [Dialed (RpcUrl cfg) (inr e)]
    ∧ open_conns (wire w') = open_conns (wire w)
    ∧ registry w' = registry w.
Proof.
  intros Hv Hd. eexists. rewrite (New_primary_dial_fails _ _ _ _ e Hv Hd).
  repeat split; settle; try done. by rewrite open_conns_app.
Qed.

(** X8: a facade [New] returns keeps the config it was given, has its
    main connection dialed at [RpcUrl] and its backup connection dialed
    at [FailoverRpcUrl], in this order, as two different handles, and
    both are open when [New] returns. *)
Theorem New_wires_both_endpoints appName chain cfg w c e w' :
  New appName chain cfg w = Returned (Some c, e) w' →
  c_cfg c = cfg
  ∧ conn_url (c_m c) = RpcUrl cfg
  ∧ conn_url (c_b c) = FailoverRpcUrl cfg
  ∧ c_m c ≠ c_b c
  ∧ wire w' = wire w ++ [Dialed (RpcUrl cfg) (inl (c_m c));
                         Dialed (FailoverRpcUrl cfg) (inl (c_b c))]
  ∧ c_m c ∈ open_conns (wire w')
  ∧ c_b c ∈ open_conns (wire w').
Proof.
  intros Hnew.
  apply New_returns_client in Hnew
    as (_ & _ & _ & _ & Hcfg & Hm & Hb & _ & Hwire & _).
  rewrite Hwire, Hm, Hb, open_conns_app. cbn [fold_left track_open conn_url].
  repeat split; try done.
  - intros [= Hid _]. lia.
  - rewrite <- app_assoc. apply elem_of_app. right. by left.
  - apply elem_of_app. right. by apply list_elem_of_singleton.
Qed.

(** X9: a facade [New] returns for a config with [EnablePrometheus] off
    panics with a nil dereference in every operation, in whatever world
    the operation starts; the primary has been called by then. *)
Theorem facade_without_metrics_panics appName chain cfg w0 c e w1
    meth ctx (args : Args meth) w :
  New appName chain cfg w0 = Returned (Some c, e) w1 →
  EnablePrometheus cfg = false →
  ∃ wp, invoke c meth ctx args w = Panicked nil_dereference wp
    ∧ wire wp = wire w
        ++ [Called (c_m c) meth ctx args
              (answer (c_m c) meth ctx args (clock w) (wire w))]
    ∧ recorded wp = recorded w.
Proof.
  intros Hnew Hoff.
  destruct (New_without_metrics _ _ _ _ _ _ _ Hnew Hoff) as [Hs _].
  eexists. rewrite invoke_dispatch.
  rewrite (dispatch_nil_metrics (classify c) c (observedLabel meth)
             meth ctx args w Hs).
  by repeat split.
Qed.

Lemma Close_run c w :
  Close c w = Returned () (on_wire (Closed (c_b c)) (on_wire (Closed (c_m c)) w)).
Proof. reflexivity. Qed.

(** X10: [Close] closes the main connection and then the backup
    connection, after which neither is open; it leaves the collectors in
    the registry and the samples where they are. *)
Theorem Close_closes_connections_only c w :
  ∃ w', Close c w = Returned () w'
    ∧ wire w' = wire w ++ [Closed (c_m c); Closed (c_b c)]
    ∧ (c_m c ∉ open_conns (wire w'))
    ∧ (c_b c ∉ open_conns (wire w'))
    ∧ registry w' = registry w
    ∧ recorded w' = recorded w.
Proof.
  eexists. rewrite Close_run. split; [reflexivity|]. settle.
  rewrite <- app_assoc. split; [reflexivity|].
  rewrite open_conns_app. cbn [fold_left track_open app].
  repeat split; try done; intros Hin.
  - apply list_elem_of_filter in Hin as [_ Hin].
    by apply list_elem_of_filter in Hin as [Hne _].
  - by apply list_elem_of_filter in Hin as [Hne _].
Qed.

(** X11: [Close] does not unregister, so a facade cannot be built twice
    for one app and chain.  After [New] returned a facade with metrics
    enabled, whether or not that facade was closed since, a further [New]
    for the same app and chain with metrics enabled, a valid config and
    both endpoints up panics in [Register]; by then it has opened both
    connections, and they stay open. *)
Theorem New_again_panics appName chain cfg w c e w1 cfg' w2 :
  New appName chain cfg w = Returned (Some c, e) w1 →
  EnablePrometheus cfg = true →
  registry w2 = registry w1 →
  let m := {| conn_id := length (wire w2); conn_url := RpcUrl cfg' |} in
  let b := {| conn_id := S (length (wire w2));
              conn_url := FailoverRpcUrl cfg' |} in
  Valid cfg' = nil →
  EnablePrometheus cfg' = true →
  dial_error (RpcUrl cfg') (clock w2) (wire w2) = nil →
  dial_error (FailoverRpcUrl cfg') (clock w2)
    (wire w2 ++ [Dialed (RpcUrl cfg') (inl m)]) = nil →
  ∃ wp, New appName chain cfg' w2
        = Panicked "duplicate metrics collector registration attempted" wp
    ∧ wire wp = wire w2 ++ [Dialed (RpcUrl cfg') (inl m);
                            Dialed (FailoverRpcUrl cfg') (inl b)]
    ∧ m ∈ open_conns (wire wp)
    ∧ b ∈ open_conns (wire wp)
    ∧ registry wp = registry w2.
Proof.
  intros Hnew Hon Hreg2 m b Hv Hon' Hd1 Hd2.
  apply New_returns_client in Hnew
    as (_ & _ & _ & _ & _ & _ & _ & _ & _ & _ & Hreg1).
  rewrite Hon in Hreg1.
  run_New. rewrite Hv. settle. rewrite Hd1. settle. fold m. rewrite Hd2.
  settle. rewrite length_app, Nat.add_1_r. fold b. rewrite Hon'.
  cbv [Register prometheus_MustRegister mbind mret Go_bind Go_ret]. settle.
  rewrite bool_decide_eq_true_2.
  2:{ rewrite Hreg2, Hreg1, !fmap_app. apply elem_of_app. right. by left. }
  eexists. split; [reflexivity|]. settle. rewrite <- app_assoc.
  split; [reflexivity|]. rewrite open_conns_app.
  cbn [fold_left track_open app].
  repeat split; try done.
  - rewrite <- app_assoc. apply elem_of_app. right. by left.
  - apply elem_of_app. right. by apply list_elem_of_singleton.
Qed.

(** ** Loading the config *)

Lemma Valid_nil_iff cfg :
  Valid cfg = nil
  ↔ (len (RpcName cfg) < 32)%nat ∧ (len (FailoverRpcName cfg) < 32)%nat.
Proof.
  unfold Valid, nameLenLimit, fmt_Errorf.
  destruct (Nat.leb_spec 32 (len (RpcName cfg)));
    [split; [done|lia]|].
  destruct (Nat.leb_spec 32 (len (FailoverRpcName cfg)));
    [split; [done|lia]|].
  by split.
Qed.

(** With a valid config and both endpoints up, [New] returns a facade if
    it returns at all. *)
Lemma New_returns_facade appName chain cfg w r w' :
  let m := {| conn_id := length (wire w); conn_url := RpcUrl cfg |} in
  Valid cfg = nil →
  dial_error (RpcUrl cfg) (clock w) (wire w) = nil →
  dial_error (FailoverRpcUrl cfg) (clock w)
    (wire w ++ [Dialed (RpcUrl cfg) (inl m)]) = nil →
  New appName chain cfg w = Returned r w' →
  ∃ c, r = (Some c, nil).
Proof.
  intros m Hv Hd1 Hd2. run_New. rewrite Hv. settle. rewrite Hd1. settle.
  fold m. rewrite Hd2. settle.
  destruct (EnablePrometheus cfg).
  - cbv [Register prometheus_MustRegister mbind mret Go_bind Go_ret]. settle.
    case_bool_decide; [done|]. settle. case_bool_decide; [done|].
    intros [= <- _]. by eexists.
  - intros [= <- _]. by eexists.
Qed.

Context {env : Environment}.

(** X12: [ConfigFromEnvPrefix] returns a config exactly when
    [envconfig.Process] delivers one whose two names are shorter than 32
    bytes, and then returns that config unchanged; it panics exactly when
    [Process] fails, with its error; it ends the process exactly when the
    delivered config fails [Valid], logging that error.  [ConfigFromEnv]
    is [ConfigFromEnvPrefix] at the prefix "ethclient". *)
Theorem ConfigFromEnvPrefix_outcomes prefix :
  (∀ config, ConfigFromEnvPrefix prefix = Loaded config
     ↔ envconfig_Process prefix zero_Config = inl config
       ∧ (len (RpcName config) < 32)%nat
       ∧ (len (FailoverRpcName config) < 32)%nat)
  ∧ (∀ e, ConfigFromEnvPrefix prefix = StartupPanicked e
     ↔ envconfig_Process prefix zero_Config = inr e)
  ∧ (∀ e, ConfigFromEnvPrefix prefix = Fatal e
     ↔ ∃ config, envconfig_Process prefix zero_Config = inl config
         ∧ Valid config = Some e)
  ∧ ConfigFromEnv = ConfigFromEnvPrefix "ethclient".
Proof.
  unfold ConfigFromEnv, ConfigFromEnvPrefix, envconfig_MustProcess,
    DefaultEnvPrefix.
  split; [|split; [|split; [|reflexivity]]].
  - intros config.
    destruct (envconfig_Process prefix zero_Config) as [got|e0].
    + pose proof (Valid_nil_iff got) as [Hto Hfrom].
      destruct (Valid got) as [ev|].
      * split; [done|]. intros ([= ->] & H1 & H2).
        by specialize (Hfrom (conj H1 H2)).
      * split.
        { intros [= ->]. split; [done|]. by apply Hto. }
        { by intros ([= ->] & _). }
    + split; [done|]. by intros [[=] _].
  - intros e.
    destruct (envconfig_Process prefix zero_Config) as [got|e0].
    + destruct (Valid got); split; done.
    + split; by intros [= ->].
  - intros e.
    destruct (envconfig_Process prefix zero_Config) as [got|e0].
    + destruct (Valid got) as [ev|] eqn:Hv.
      * split.
        { intros [= ->]. by exists got. }
        { intros (config & [= <-] & Hv'). congruence. }
      * split; [done|]. intros (config & [= <-] & Hv'). congruence.
    + split; [done|]. by intros (config & [=] & _).
Qed.

(** X13: [New] on a config that [ConfigFromEnvPrefix] returned never
    fails on validation: when it returns, it returns a facade with a nil
    error, or no facade and the error of the dial that failed. *)
Theorem New_on_loaded_config prefix config appName chain w r w' :
  let m := {| conn_id := length (wire w); conn_url := RpcUrl config |} in
  ConfigFromEnvPrefix prefix = Loaded config →
  New appName chain config w = Returned r w' →
  (∃ c, r = (Some c, nil))
  ∨ (∃ e, r = (None, Some e)
       ∧ (dial_error (RpcUrl config) (clock w) (wire w) = Some e
          ∨ dial_error (FailoverRpcUrl config) (clock w)
              (wire w ++ [Dialed (RpcUrl config) (inl m)]) = Some e)).
Proof.
  intros m Hload Hnew.
  assert (Valid config = nil) as Hv.
  { revert Hload. unfold ConfigFromEnvPrefix, envconfig_MustProcess.
    destruct (envconfig_Process prefix zero_Config) as [config'|]; [|done].
    destruct (Valid config') eqn:Hv'; [done|]. by intros [= <-]. }
  destruct (dial_error (RpcUrl config) (clock w) (wire w)) as [e|] eqn:Hd1.
  { rewrite (New_primary_dial_fails _ _ _ _ e Hv Hd1) in Hnew.
    injection Hnew as <- _. right. exists e. split; [done|by left]. }
  destruct (dial_error (FailoverRpcUrl config) (clock w)
              (wire w ++ [Dialed (RpcUrl config) (inl m)])) as [e|] eqn:Hd2.
  { rewrite (New_secondary_dial_fails _ _ _ _ e Hv Hd1 Hd2) in Hnew.
    injection Hnew as <- _. right. exists e. split; [done|by right]. }
  left. by eapply New_returns_facade.
Qed.

End Proofs.

(** ** The theorems at work on the scripted endpoints *)

Section Scenarios.

Abbreviation my_metrics := (newMetrics "my-app" "ethereum").
Abbreviation run c meth args :=
  (invoke (T:=plain_types) (net:=scripted_net) c meth () args empty_world).

(** [New] in the empty world, with both endpoints up, gives
    [scripted_client]. *)
Lemma New_scripted enable primary backup :
  String.eqb primary "http://unreachable" = false →
  String.eqb backup "http://unreachable" = false →
  ∃ w', New (T:=plain_types) (net:=scripted_net) "my-app" "ethereum"
          (scripted_cfg enable primary backup) empty_world
        = Returned (Some (scripted_client enable primary backup), nil) w'.
Proof.
  intros Hp Hb.
  cbv [New mbind mret Go_bind Go_ret logger_Info ethclient_Dial
       scripted_cfg Valid dial_error scripted_net RpcUrl FailoverRpcUrl
       RpcName FailoverRpcName EnablePrometheus].
  rewrite Hp. cbn. rewrite Hb. cbn. destruct enable; eexists; reflexivity.
Qed.







(** C5 on the scripted endpoints: the one observation of a
    [TransactionByHash] that succeeds on the primary is filed under
    "BalanceAtTransactionByHash". *)
Lemma TransactionByHash_label_witness :
  ∃ w', TransactionByHash (T:=plain_types) (net:=scripted_net)
          healthy_client () 3 empty_world
        = Returned (100, false, nil) w'
    ∧ recorded w'
      = observation my_metrics "BalanceAtTransactionByHash" "nodereal" true 5.
Proof.
  destruct (TransactionByHash_label (T:=plain_types) (net:=scripted_net)
              healthy_client my_metrics () 3 empty_world eq_refl eq_refl)
    as (w' & Hrun & Hrec & _).
  exists w'. split; [exact Hrun | exact Hrec].
Defined.

(** C6 on the scripted endpoints: the facade built with metrics disabled
    panics on a [BalanceAt] that the primary answers without error. *)
Lemma operations_panic_without_recorder_witness :
  c_metrics unrecorded_client = None
  ∧ ∃ w', run unrecorded_client ec_BalanceAt (7, 0)
          = Panicked nil_dereference w'.
Proof.
  split; [reflexivity|]. eexists.
  exact (operations_panic_without_recorder (T:=plain_types)
           (net:=scripted_net) unrecorded_client ec_BalanceAt () (7, 0)
           empty_world eq_refl).
Defined.

(** [New] with a secondary endpoint that cannot be dialed: the dial's
    error, no facade, nothing registered. *)
Lemma New_needs_both_dials_witness :
  ∃ w', New (T:=plain_types) (net:=scripted_net) "my-app" "ethereum"
          (scripted_cfg true "http://nodereal" "http://unreachable")
          empty_world
        = Returned (None, Some (errorString "dial tcp: no route to host")) w'
    ∧ registry w' = [] ∧ recorded w' = [].
Proof.
  destruct (New_needs_both_dials (T:=plain_types) (net:=scripted_net)
              "my-app" "ethereum"
              (scripted_cfg true "http://nodereal" "http://unreachable")
              empty_world) as (_ & Hsecond & _).
  destruct (Hsecond (errorString "dial tcp: no route to host")
              eq_refl eq_refl) as (e' & w' & Hrun & He & Hreg & Hrec).
  rewrite (He eq_refl) in Hrun. by exists w'.
Defined.

(** In the same situation the connection to the primary, number 0,
    stays open. *)
Lemma New_leaves_primary_open_witness :
  ∃ w', New (T:=plain_types) (net:=scripted_net) "my-app" "ethereum"
          (scripted_cfg true "http://nodereal" "http://unreachable")
          empty_world
        = Returned (None, Some (errorString "dial tcp: no route to host")) w'
    ∧ {| conn_id := 0; conn_url := "http://nodereal" |} ∈ open_conns (wire w').
Proof.
  destruct (New_leaves_primary_open (T:=plain_types) (net:=scripted_net)
              "my-app" "ethereum"
              (scripted_cfg true "http://nodereal" "http://unreachable")
              empty_world (errorString "dial tcp: no route to host")
              eq_refl eq_refl eq_refl) as (w' & Hrun & _ & Hopen).
  by exists w'.
Defined.

(** The recorder of the facade [New "my-app" "ethereum"] builds. *)
Lemma New_builds_two_aggregates_witness :
  ∃ s, c_metrics healthy_client = Some s
    ∧ cv_Name (req s) = "rpc_request_total"
    ∧ hv_Name (latency s) = "rpc_latency_milliseconds"
    ∧ cv_ConstLabels (req s) !! "app" = Some "my-app"
    ∧ cv_ConstLabels (req s) !! "chain" = Some "ethereum".
Proof.
  destruct (New_builds_two_aggregates (T:=plain_types) (net:=scripted_net)
              "my-app" "ethereum"
              (scripted_cfg true "http://nodereal" "http://alchemy")
              empty_world healthy_client nil
              _
              eq_refl eq_refl)
    as (s & Hs & Hn1 & Hn2 & _ & _ & Hc & _).
  exists s. rewrite Hc. by repeat split.
Defined.

(** Names of 8 and 7 bytes pass; a failover name of 32 bytes does not. *)
Lemma Valid_length_limit_witness :
  Valid (scripted_cfg true "http://nodereal" "http://alchemy") = nil
  ∧ len name32 = 32%nat
  ∧ ∃ e, Valid long_name_cfg = Some e.
Proof.
  split; [|split; [reflexivity|]].
  - apply Valid_length_limit. cbn. lia.
  - apply Valid_length_limit. right. cbn. lia.
Defined.



(** The label of [TransactionByHash] is not the one of [BalanceAt]. *)
Lemma labels_tell_operations_apart_witness :
  observedLabel ec_BalanceAt ≠ observedLabel ec_TransactionByHash.
Proof.
  apply labels_tell_operations_apart. discriminate.
Defined.


(** [New] with a failover name of 32 bytes: the error of [Valid], and
    nothing on the wire. *)
Lemma New_validates_before_dialing_witness :
  ∃ w', New (T:=plain_types) (net:=scripted_net) "my-app" "ethereum"
          long_name_cfg empty_world
        = Returned
            (None,
             Some (errorString ("invalid RpcFailoverName: " +:+ name32))) w'
    ∧ wire w' = [].
Proof.
  destruct (New_validates_before_dialing (T:=plain_types) (net:=scripted_net)
              "my-app" "ethereum" long_name_cfg empty_world
              (errorString ("invalid RpcFailoverName: " +:+ name32)) eq_refl)
    as (w' & Hrun & Hwire & _).
  by exists w'.
Defined.

(** [New] with a primary endpoint that cannot be dialed: one dial. *)
Lemma New_stops_at_primary_dial_witness :
  ∃ w', New (T:=plain_types) (net:=scripted_net) "my-app" "ethereum"
          (scripted_cfg true "http://unreachable" "http://alchemy")
          empty_world
        = Returned (None, Some (errorString "dial tcp: no route to host")) w'
    ∧ wire w'
      = [Dialed "http://unreachable"
           (inr (errorString "dial tcp: no route to host"))].
Proof.
  destruct (New_stops_at_primary_dial (T:=plain_types) (net:=scripted_net)
              "my-app" "ethereum"
              (scripted_cfg true "http://unreachable" "http://alchemy")
              empty_world (errorString "dial tcp: no route to host")
              eq_refl eq_refl)
    as (w' & Hrun & Hwire & _).
  by exists w'.
Defined.

(** The facade [New] builds in the empty world is wired to its two
    URLs. *)
Lemma New_wires_both_endpoints_witness :
  conn_url (c_m healthy_client) = "http://nodereal"
  ∧ conn_url (c_b healthy_client) = "http://alchemy"
  ∧ c_m healthy_client ≠ c_b healthy_client.
Proof.
  destruct (New_wires_both_endpoints (T:=plain_types) (net:=scripted_net)
              "my-app" "ethereum"
              (scripted_cfg true "http://nodereal" "http://alchemy")
              empty_world healthy_client nil _ eq_refl)
    as (_ & Hm & Hb & Hne & _).
  by repeat split.
Defined.

(** The facade [New] builds with metrics disabled panics on a
    [BalanceAt]. *)
Lemma facade_without_metrics_panics_witness :
  ∃ wp, run unrecorded_client ec_BalanceAt (7, 0)
        = Panicked nil_dereference wp
    ∧ recorded wp = [].
Proof.
  destruct (facade_without_metrics_panics (T:=plain_types)
              (net:=scripted_net) "my-app" "ethereum"
              (scripted_cfg false "http://nodereal" "http://alchemy")
              empty_world unrecorded_client nil _
              ec_BalanceAt () (7, 0) empty_world eq_refl eq_refl)
    as (wp & Hrun & _ & Hrec).
  by exists wp.
Defined.

(** The world [New "my-app" "ethereum"] leaves behind when it builds
    [healthy_client] in the empty world. *)
Lemma New_healthy :
  ∃ w1, New (T:=plain_types) (net:=scripted_net) "my-app" "ethereum"
          (scripted_cfg true "http://nodereal" "http://alchemy") empty_world
        = Returned (Some healthy_client, nil) w1
    ∧ wire w1 = [Dialed "http://nodereal" (inl (c_m healthy_client));
                 Dialed "http://alchemy" (inl (c_b healthy_client))]
    ∧ clock w1 = 0.
Proof. eexists. split; [vm_compute; reflexivity|]. by split. Defined.

(** A second [New "my-app" "ethereum"], right after the first: the
    panic, and connections 2 and 3 left open. *)
Lemma New_again_panics_witness :
  ∃ w1 wp,
    New (T:=plain_types) (net:=scripted_net) "my-app" "ethereum"
      (scripted_cfg true "http://nodereal" "http://alchemy") empty_world
    = Returned (Some healthy_client, nil) w1
    ∧ New (T:=plain_types) (net:=scripted_net) "my-app" "ethereum"
        (scripted_cfg true "http://nodereal" "http://alchemy") w1
      = Panicked "duplicate metrics collector registration attempted" wp
    ∧ {| conn_id := 2; conn_url := "http://nodereal" |} ∈ open_conns (wire wp)
    ∧ {| conn_id := 3; conn_url := "http://alchemy" |} ∈ open_conns (wire wp).
Proof.
  destruct New_healthy as (w1 & Hnew & Hwire & Hclock).
  destruct (New_again_panics (T:=plain_types) (net:=scripted_net)
              "my-app" "ethereum"
              (scripted_cfg true "http://nodereal" "http://alchemy")
              empty_world healthy_client nil w1
              (scripted_cfg true "http://nodereal" "http://alchemy") w1
              Hnew eq_refl eq_refl eq_refl eq_refl eq_refl eq_refl)
    as (wp & Hrun & _ & Hm & Hb & _).
  exists w1, wp. rewrite Hwire in Hm, Hb. by repeat split.
Defined.

(** The README's environment under the prefix "ethereum": the config is
    loaded, and [New] on it builds [healthy_client]. *)
Lemma New_on_loaded_config_witness :
  ConfigFromEnvPrefix (env:=scripted_env) "ethereum"
  = Loaded (scripted_cfg true "http://nodereal" "http://alchemy")
  ∧ ∃ c, (Some healthy_client, nil) = (Some c, nil).
Proof.
  split; [reflexivity|].
  destruct New_healthy as (w1 & Hnew & _).
  destruct (New_on_loaded_config (T:=plain_types) (net:=scripted_net)
              (env:=scripted_env) "ethereum"
              (scripted_cfg true "http://nodereal" "http://alchemy")
              "my-app" "ethereum" empty_world
              (Some healthy_client, nil) w1 eq_refl Hnew)
    as [Hok|(e & [=] & _)].
  exact Hok.
Defined.

End Scenarios.
